(** * ClinicalTrials MCP server: the query-translation and
      response-shaping engine of [src/index.ts], embedded in Rocq.

    Every handler of the server is an [async] method that composes a query
    parameter object, awaits one (or two) [axiosInstance.get('/studies')]
    calls and shapes the answer.  The embedding keeps that structure: a
    handler is a finite tree ([Call]) whose nodes are the upstream requests
    and whose leaves are the value returned or the exception thrown.

    Conventions.
    - A JavaScript string is a sequence of UTF-16 code units; the model
      covers the code units below 256 (Basic Latin and Latin-1 Supplement),
      one [ascii] each.
    - A JavaScript number is modelled by an integer ([Z]).
    - The argument bag [args : any] is a record with one optional field per
      property declared in the tools' input schemas, typed as declared.
    - An optional (possibly [undefined]) value is an [option]. *)

From Stdlib Require Import ZArith Bool Ascii String List Lia.
From stdpp Require Import base option list gmap strings.

Local Open Scope Z_scope.
Local Open Scope string_scope.

(** ** JavaScript strings *)

Module JsString.

Definition code (c : ascii) : nat := nat_of_ascii c.

Definition between (lo hi n : nat) : bool := (lo <=? n)%nat && (n <=? hi)%nat.

(** [\d] of a regular expression: the ten ASCII digits. *)
Definition isDigit (c : ascii) : bool := between 48 57 (code c).

(** [\s] of a regular expression, below code unit 256: TAB, LF, VT, FF,
    CR, SPACE and NO-BREAK SPACE. *)
Definition isSpace (c : ascii) : bool :=
  between 9 13 (code c) || (code c =? 32)%nat || (code c =? 160)%nat.

(** Letters with a lower-case partner: A-Z, and the Latin-1 capitals
    U+00C0..U+00DE except the multiplication sign U+00D7. *)
Definition isUpper (c : ascii) : bool :=
  between 65 90 (code c) || between 192 214 (code c) || between 216 222 (code c).

Definition toLowerChar (c : ascii) : ascii :=
  if isUpper c then ascii_of_nat (code c + 32) else c.

(** [s.toLowerCase()] *)
Fixpoint toLowerCase (s : string) : string :=
  match s with
  | EmptyString => EmptyString
  | String c s' => String (toLowerChar c) (toLowerCase s')
  end.

(** [s.substring(from, to)]: the arguments are swapped when [from > to],
    and both are capped by the length of [s]. *)
Definition substring (s : string) (from to : nat) : string :=
  String.substring (Nat.min from to) (Nat.max from to - Nat.min from to) s.

(** [s.includes(w)]: [w] occurs in [s] at some position. *)
Fixpoint includes (s w : string) : bool :=
  String.prefix w s ||
  match s with
  | EmptyString => false
  | String _ s' => includes s' w
  end.

(** [s.split(/\s+/)].  The separator matches every maximal run of white
    space; the pieces between the runs are returned, including the empty
    piece before a leading run and after a trailing one.  [cur] is the
    piece being read, [in_sep] tells that the previous code unit belonged
    to a separator. *)
Fixpoint split_ws_from (s cur : string) (in_sep : bool) : list string :=
  match s with
  | EmptyString => [cur]
  | String c s' =>
      if isSpace c then
        if in_sep then split_ws_from s' cur true
        else cur :: split_ws_from s' EmptyString true
      else split_ws_from s' (cur +:+ String c EmptyString) false
  end.

Definition split_ws (s : string) : list string :=
  split_ws_from s EmptyString false.

End JsString.

(** ** Regular expressions (the fragment the server uses) *)

Module RegExp.
Import JsString.

Inductive t :=
| Chr (c : ascii)           (* a literal character *)
| Digit                     (* \d *)
| Seq (r1 r2 : t)           (* r1 r2 *)
| Times (n : nat) (r : t).  (* r{n} *)

(** Matching in continuation style: [matches r s k] consumes a match of
    [r] at the start of [s] and hands the rest to [k]. *)
Fixpoint matches (r : t) (s : string) (k : string -> bool) : bool :=
  match r with
  | Chr c =>
      match s with
      | String d s' => Ascii.eqb c d && k s'
      | EmptyString => false
      end
  | Digit =>
      match s with
      | String d s' => isDigit d && k s'
      | EmptyString => false
      end
  | Seq r1 r2 => matches r1 s (fun s' => matches r2 s' k)
  | Times n r =>
      (fix times (n : nat) (s : string) : bool :=
         match n with
         | O => k s
         | S n' => matches r s (times n')
         end) n s
  end.

Definition atEnd (s : string) : bool :=
  match s with EmptyString => true | String _ _ => false end.

(** [/^r$/.test(s)]: without the [m] flag, [^] is the start and [$] the
    very end of the input. *)
Definition test_anchored (r : t) (s : string) : bool := matches r s atEnd.

(** [/^NCT\d{8}$/] *)
Definition NCT_ID : t :=
  Seq (Chr "N") (Seq (Chr "C") (Seq (Chr "T") (Times 8 Digit))).

End RegExp.

(** ** JavaScript truthiness, [||] and optional chaining *)

(** [ToBoolean] at the types the server uses: the empty string, the number
    0 and [false] are falsy; arrays and objects are truthy. *)
Class Truthy (A : Type) := truthy : A -> bool.

#[export] Instance truthy_string : Truthy string :=
  fun s => match s with EmptyString => false | String _ _ => true end.
#[export] Instance truthy_number : Truthy Z := fun n => negb (n =? 0)%Z.
#[export] Instance truthy_boolean : Truthy bool := fun b => b.
#[export] Instance truthy_array {A} : Truthy (list A) := fun _ => true.

(** [given o]: the test [if (o)] on a possibly undefined value. *)
Definition given {A} `{Truthy A} (o : option A) : bool :=
  match o with
  | Some a => truthy a
  | None => false
  end.

(** [o || d] *)
Definition js_or {A} `{Truthy A} (o : option A) (d : A) : A :=
  match o with
  | Some a => if truthy a then a else d
  | None => d
  end.

Infix "|||" := js_or (at level 50, left associativity).

(** ** The registry's study representation (interface [Study]) *)

(** Field types follow the TypeScript interface; a field is optional where
    the interface marks it with [?] or where the code reads it through
    [?.] (leadSponsor, conditions, eligibilityCriteria). *)
Module Study.

Record DateStruct := { date : string; type : string }.

Record IdentificationModule := {
  nctId : string;
  briefTitle : string;
  officialTitle : option string }.

Record StatusModule := {
  overallStatus : string;
  startDateStruct : option DateStruct;
  primaryCompletionDateStruct : option DateStruct }.

Record LeadSponsor := { name : string; class : string }.

Record SponsorCollaboratorsModule := { leadSponsor : option LeadSponsor }.

Record ConditionsModule := { conditions : option (list string) }.

Record DesignModule := {
  phases : option (list string);
  studyType : string }.

Record Location := {
  facility : string;
  city : string;
  state : option string;
  country : string }.

Record ContactsLocationsModule := { locations : option (list Location) }.

Record EligibilityModule := {
  eligibilityCriteria : option string;
  healthyVolunteers : bool;
  sex : string;
  minimumAge : option string;
  maximumAge : option string }.

Record ProtocolSection := {
  identificationModule : IdentificationModule;
  statusModule : StatusModule;
  sponsorCollaboratorsModule : option SponsorCollaboratorsModule;
  conditionsModule : option ConditionsModule;
  designModule : option DesignModule;
  contactsLocationsModule : option ContactsLocationsModule;
  eligibilityModule : option EligibilityModule }.

Record t := { protocolSection : ProtocolSection }.

End Study.

(** Interface [StudySearchResponse].  [studies] and [totalCount] are read
    as [response.data.studies || []] and [response.data.totalCount || 0],
    so both may be missing from the upstream answer. *)
Record StudySearchResponse := {
  studies : option (list Study.t);
  totalCount : option Z }.

(** ** Tool arguments *)

(** The nested [filters] object of the statistics tool. *)
Module Filters.

Record t := {
  condition : option string;
  phase : option string;
  status : option string }.

End Filters.

Module Args.

Record t := {
  query : option string;
  condition : option string;
  intervention : option string;
  location : option string;
  phase : option string;
  status : option string;
  sex : option string;
  age : option string;
  pageSize : option Z;
  nctId : option string;
  country : option string;
  state : option string;
  city : option string;
  facilityName : option string;
  distance : option Z;
  recruitmentStatus : option string;
  groupBy : option string;
  filters : option Filters.t;
  sponsor : option string;
  sponsorType : option string;
  interventionType : option string;
  ageGroup : option string;
  startDateFrom : option string;
  startDateTo : option string;
  completionDateFrom : option string;
  completionDateTo : option string;
  completedAfter : option string;
  rareDisease : option string;
  ageRange : option string;
  similarityType : option string;
  outcome : option string;
  minAge : option string;
  maxAge : option string;
  healthyVolunteers : option bool;
  exclusionKeywords : option string;
  inclusionKeywords : option string;
  timelineType : option string;
  excludeCountry : option string;
  includeCountry : option string;
  minCountries : option Z }.

(** An empty (or [undefined]) argument bag. *)
Definition none : t :=
  Build_t None None None None None None None None None None
          None None None None None None None None None None
          None None None None None None None None None None
          None None None None None None None None None None.

(** The same bag with another [pageSize]. *)
Definition with_pageSize (n : option Z) (a : t) : t :=
  {| query := query a; condition := condition a; intervention := intervention a;
     location := location a; phase := phase a; status := status a; sex := sex a;
     age := age a; pageSize := n; nctId := nctId a; country := country a;
     state := state a; city := city a; facilityName := facilityName a;
     distance := distance a; recruitmentStatus := recruitmentStatus a;
     groupBy := groupBy a; filters := filters a; sponsor := sponsor a;
     sponsorType := sponsorType a; interventionType := interventionType a;
     ageGroup := ageGroup a; startDateFrom := startDateFrom a;
     startDateTo := startDateTo a; completionDateFrom := completionDateFrom a;
     completionDateTo := completionDateTo a; completedAfter := completedAfter a;
     rareDisease := rareDisease a; ageRange := ageRange a;
     similarityType := similarityType a; outcome := outcome a; minAge := minAge a;
     maxAge := maxAge a; healthyVolunteers := healthyVolunteers a;
     exclusionKeywords := exclusionKeywords a;
     inclusionKeywords := inclusionKeywords a; timelineType := timelineType a;
     excludeCountry := excludeCountry a; includeCountry := includeCountry a;
     minCountries := minCountries a |}.

End Args.

(** ** Upstream query, upstream answers, tool results *)

(** A value of the [params] object handed to axios. *)
Inductive ParamValue :=
| PStr (s : string)
| PNum (n : Z)
| PBool (b : bool).

(** The query parameter object, keyed by the upstream parameter name. *)
Abbreviation Params := (gmap string ParamValue).

(** [if (o) params[key] = o] *)
Definition set_if {A} `{Truthy A} (key : string) (inj : A -> ParamValue)
    (o : option A) (params : Params) : Params :=
  match o with
  | Some a => if truthy a then <[key := inj a]> params else params
  | None => params
  end.

(** The value handed to [JSON.stringify]. *)
#[local] Set Warnings "-register-all".
Inductive Json :=
| JNull
| JBool (b : bool)
| JNum (n : Z)
| JStr (s : string)
| JArr (items : list Json)
| JObj (fields : list (string * Json)).

Module Json.

(** An object literal: a property whose value is [undefined] is left out
    of the serialisation. *)
Definition object (props : list (string * option Json)) : Json :=
  JObj (omap (fun p => pair (fst p) <$> snd p) props).

Definition strings (l : list string) : Json := JArr (JStr <$> l).

Fixpoint lookup (key : string) (fields : list (string * Json)) : option Json :=
  match fields with
  | [] => None
  | (k, v) :: rest => if String.eqb k key then Some v else lookup key rest
  end.

(** [j[key]] *)
Definition get (key : string) (j : Json) : option Json :=
  match j with
  | JObj fields => lookup key fields
  | _ => None
  end.

End Json.

(** What an axios error exposes to the handlers: [error.response?.status],
    [error.response?.data?.message] and [error.message]. *)
Record AxiosError := {
  response_status : option Z;
  response_data_message : option string;
  message : string }.

(** Outcome of [await axiosInstance.get('/studies', { params })]. *)
Inductive Reply :=
| Response (data : StudySearchResponse)
| AxiosFailure (error : AxiosError)   (* axios.isAxiosError(error) *)
| OtherFailure (message : string).    (* any other rejection *)

Inductive ErrorCode := InvalidParams | MethodNotFound | InternalError.

Inductive Exception :=
| McpError (code : ErrorCode) (message : string)
| Error (message : string).

Inductive Content :=
| Text (text : string)
| Stringified (value : Json).   (* JSON.stringify(value, null, 2) *)

(** [{ content: [{ type: 'text', text }], isError }]; a result without
    [isError] has it [false]. *)
Record ToolResult := { content : Content; isError : bool }.

(** A handler call: it returns, throws, or awaits an upstream request and
    goes on with the answer. *)
Inductive Call :=
| Return (result : ToolResult)
| Throw (e : Exception)
| Get (params : Params) (k : Reply -> Call).

(** The requests a call sends when the upstream answers as [upstream]
    says, and how the call ends. *)
Fixpoint run (upstream : Params -> Reply) (c : Call)
  : list Params * (ToolResult + Exception) :=
  match c with
  | Return r => ([], inl r)
  | Throw e => ([], inr e)
  | Get params k =>
      let (sent, out) := run upstream (k (upstream params)) in
      (params :: sent, out)
  end.

Definition requests (upstream : Params -> Reply) (c : Call) : list Params :=
  fst (run upstream c).

Definition outcome (upstream : Params -> Reply) (c : Call) : ToolResult + Exception :=
  snd (run upstream c).


(** ** Result Projector *)

Notation "x |> f" := (f x) (at level 49, left associativity, only parsing).

(** [o + s] with a possibly undefined left operand: [undefined] is
    converted to the string "undefined" before the concatenation. *)
Definition js_plus (o : option string) (s : string) : string :=
  match o with
  | Some a => a +:+ s
  | None => "undefined" +:+ s
  end.

(** An object under construction: properties in insertion order, a value
    [None] for a property set to [undefined]. *)
Abbreviation Props := (list (string * option Json)).

Module Object.

(** [o[key] = v]: an existing property keeps its place. *)
Fixpoint assign (key : string) (v : option Json) (o : Props) : Props :=
  match o with
  | [] => [(key, v)]
  | (k, w) :: o' =>
      if String.eqb k key then (k, v) :: o' else (k, w) :: assign key v o'
  end.

(** An object literal [{ ...spread, k1: v1, ... }], read left to right. *)
Definition literal (props : Props) : Props :=
  fold_left (fun o p => assign (fst p) (snd p) o) props [].

(** The literal as [JSON.stringify] writes it. *)
Definition json (props : Props) : Json := Json.object (literal props).

End Object.

Module Projector.
Import Study.

Definition jstr (s : string) : option Json := Some (JStr s).
Definition jnum (n : Z) : option Json := Some (JNum n).
Definition jlen {A} (l : list A) : option Json := Some (JNum (Z.of_nat (length l))).

Definition dateStruct_json (d : DateStruct) : Json :=
  Object.json [("date", jstr (date d)); ("type", jstr (type d))].

Definition leadSponsor_json (l : LeadSponsor) : Json :=
  Object.json [("name", jstr (name l)); ("class", jstr (class l))].

Definition location_json (l : Location) : Json :=
  Object.json [("facility", jstr (facility l)); ("city", jstr (city l));
               ("state", JStr <$> state l); ("country", jstr (country l))].

Definition eligibilityModule_json (e : EligibilityModule) : Json :=
  Object.json [("eligibilityCriteria", JStr <$> eligibilityCriteria e);
               ("healthyVolunteers", Some (JBool (healthyVolunteers e)));
               ("sex", jstr (sex e));
               ("minimumAge", JStr <$> minimumAge e);
               ("maximumAge", JStr <$> maximumAge e)].

Section Accessors.
Variable study : Study.t.

Let ps := protocolSection study.

Definition the_nctId : string := nctId (identificationModule ps).
Definition the_phases : option (list string) := designModule ps ≫= phases.
Definition the_studyType : option string := studyType <$> designModule ps.
Definition the_leadSponsor : option LeadSponsor :=
  sponsorCollaboratorsModule ps ≫= leadSponsor.
Definition the_conditions : option (list string) := conditionsModule ps ≫= conditions.
Definition the_locations : option (list Location) :=
  contactsLocationsModule ps ≫= locations.
Definition the_criteria : option string := eligibilityModule ps ≫= eligibilityCriteria.
Definition the_startDate : option string := date <$> startDateStruct (statusModule ps).
Definition the_completionDate : option string :=
  date <$> primaryCompletionDateStruct (statusModule ps).

(** [formatStudySummary(study)] *)
Definition formatStudySummary : Props :=
  [("nctId", jstr the_nctId);
   ("title", jstr (briefTitle (identificationModule ps)));
   ("status", jstr (overallStatus (statusModule ps)));
   ("phase", Some (Json.strings (the_phases ||| ["Not specified"])));
   ("studyType", jstr (the_studyType ||| "Unknown"));
   ("sponsor", jstr ((name <$> the_leadSponsor) ||| "Not specified"));
   ("conditions", Some (Json.strings ((take 3 <$> the_conditions) ||| [])));
   ("startDate", jstr (the_startDate ||| "Not specified"))].

(** [formatDetailedStudy(study)] *)
Definition formatDetailedStudy : Json :=
  Object.json
    [("identification", Some (Object.json
        [("nctId", jstr the_nctId);
         ("briefTitle", jstr (briefTitle (identificationModule ps)));
         ("officialTitle", JStr <$> officialTitle (identificationModule ps))]));
     ("status", Some (Object.json
        [("overallStatus", jstr (overallStatus (statusModule ps)));
         ("startDate", JStr <$> the_startDate);
         ("primaryCompletionDate", JStr <$> the_completionDate)]));
     ("design", Some (Object.json
        [("studyType", JStr <$> the_studyType);
         ("phases", Json.strings <$> the_phases)]));
     ("sponsor", leadSponsor_json <$> the_leadSponsor);
     ("conditions", Json.strings <$> the_conditions);
     ("eligibility", eligibilityModule_json <$> eligibilityModule ps);
     ("locations", (fun l => JArr (location_json <$> take 10 l)) <$> the_locations)].

(** The [eligibility] block shared by several tools. *)
Definition eligibility_ages : Props :=
  [("sex", jstr ((sex <$> eligibilityModule ps) ||| "Unknown"));
   ("minimumAge", jstr ((eligibilityModule ps ≫= minimumAge) ||| "Not specified"));
   ("maximumAge", jstr ((eligibilityModule ps ≫= maximumAge) ||| "Not specified"))].

Definition eligibility_block : Props :=
  eligibility_ages ++
  [("healthyVolunteers",
    Some (JBool ((healthyVolunteers <$> eligibilityModule ps) ||| false)))].

(** [eligibilityCriteria?.substring(0, 200) + '...' || 'Not available']:
    [+] binds tighter than [||]. *)
Definition criteriaPreview : string :=
  Some (js_plus ((fun s => JsString.substring s 0 200) <$> the_criteria) "...")
  ||| "Not available".

(** [locations?.slice(0, n) || []] *)
Definition locations_upto (n : nat) : Json :=
  JArr (location_json <$> ((take n <$> the_locations) ||| [])).

End Accessors.

End Projector.

(** ** Derived-View Engine *)

(** [o && f(o)] on a possibly undefined value. *)
Definition and_then {A} `{Truthy A} (o : option A) (f : A -> bool) : bool :=
  match o with
  | Some a => truthy a && f a
  | None => false
  end.

(** A JavaScript [Set] of strings: distinct members in insertion order. *)
Module JsSet.

Definition has (s : list string) (x : string) : bool := existsb (String.eqb x) s.

Definition add (s : list string) (x : string) : list string :=
  if has s x then s else s ++ [x].

(** [new Set(l)] *)
Definition of_list (l : list string) : list string := fold_left add l [].

Definition size (s : list string) : Z := Z.of_nat (length s).

End JsSet.

Module Derived.
Import Study Projector.

(** [new Set(locations.map(loc => loc.country))] with
    [locations = ...?.locations || []] *)
Definition countries (study : Study.t) : list string :=
  JsSet.of_list (country <$> (the_locations study ||| [])).

(** The callback of [studies.filter] in [handleSearchInternationalStudies]. *)
Definition international (args : Args.t) (study : Study.t) : bool :=
  let countries := countries study in
  if and_then (Args.minCountries args) (fun m => JsSet.size countries <? m)%Z
  then false
  else if and_then (Args.excludeCountry args) (JsSet.has countries)
  then false
  else (2 <=? JsSet.size countries)%Z.

(** The callback of [studies.filter] in [handleSearchByEligibilityCriteria]. *)
Definition not_excluded (exclusionWords : list string) (study : Study.t) : bool :=
  let eligibilityCriteria := (JsString.toLowerCase <$> the_criteria study) ||| "" in
  negb (existsb (fun word => JsString.includes eligibilityCriteria word) exclusionWords).

(** [filteredStudies] of [handleSearchByEligibilityCriteria]. *)
Definition exclusion_filter (exclusionKeywords : option string)
    (studies : list Study.t) : list Study.t :=
  match exclusionKeywords with
  | Some keywords =>
      if truthy keywords then
        let exclusionWords := JsString.split_ws (JsString.toLowerCase keywords) in
        List.filter (not_excluded exclusionWords) studies
      else studies
  | None => studies
  end.

(** [groups[key] = (groups[key] || 0) + 1] *)
Fixpoint bump (key : string) (groups : list (string * Z)) : list (string * Z) :=
  match groups with
  | [] => [(key, 1)]
  | (k, n) :: rest =>
      if String.eqb k key then (k, n + 1) :: rest else (k, n) :: bump key rest
  end.

(** The grouping key of [groupByField]. *)
Definition group_key (field : string) (study : Study.t) : string :=
  if String.eqb field "status" then overallStatus (statusModule (protocolSection study))
  else if String.eqb field "phase" then (the_phases study ≫= head) ||| "Not specified"
  else if String.eqb field "studyType" then the_studyType study ||| "Unknown"
  else if String.eqb field "condition" then (the_conditions study ≫= head) ||| "Not specified"
  else if String.eqb field "sponsor" then (name <$> the_leadSponsor study) ||| "Not specified"
  else "Unknown".

Definition groupByField (studies : list Study.t) (field : string) : Json :=
  let groups := fold_left (fun groups study => bump (group_key field study) groups) studies [] in
  JObj ((fun g => (fst g, JNum (snd g))) <$> groups).

Definition calculateStatistics (studies : list Study.t) (groupBy : option string) : Json :=
  match groupBy with
  | Some field =>
      if truthy field then groupByField studies field
      else Object.json
        [("totalStudies", jlen studies);
         ("byStatus", Some (groupByField studies "status"));
         ("byPhase", Some (groupByField studies "phase"));
         ("byStudyType", Some (groupByField studies "studyType"))]
  | None => Object.json
        [("totalStudies", jlen studies);
         ("byStatus", Some (groupByField studies "status"));
         ("byPhase", Some (groupByField studies "phase"));
         ("byStudyType", Some (groupByField studies "studyType"))]
  end.

End Derived.

(** ** The tool handlers (class [ClinicalTrialsServer]) *)

Module Server.
Import Study Projector Derived.

(** A result carrying a JSON payload. *)
Definition ok (payload : Json) : ToolResult :=
  {| content := Stringified payload; isError := false |}.

Definition failed (text : string) : ToolResult :=
  {| content := Text text; isError := true |}.

(** The [catch] block shared by the handlers, axios case. *)
Definition apiError (error : AxiosError) : ToolResult :=
  failed ("Clinical Trials API error: " +:+
          (response_data_message error ||| message error)).

(** [try { response = await get('/studies', { params }); ... } catch ...]:
    an axios error becomes an error result, anything else is thrown on. *)
Definition try_get (params : Params) (on_response : StudySearchResponse -> Call) : Call :=
  Get params (fun reply =>
    match reply with
    | Response data => on_response data
    | AxiosFailure error => Return (apiError error)
    | OtherFailure message => Throw (Error message)
    end).

(** [{ format: 'json', pageSize: args?.pageSize || 10 }] *)
Definition base_params (args : Args.t) : Params :=
  {[ "format" := PStr "json"; "pageSize" := PNum (Args.pageSize args ||| 10) ]}.

(** The three counters every search payload ends with. *)
Definition counted (data : StudySearchResponse) (key : string) (results : list Json) : Props :=
  [("totalCount", jnum (totalCount data ||| 0));
   ("resultsShown", jlen results);
   (key, Some (JArr results))].

Definition invalidParams (message : string) : Call :=
  Throw (McpError InvalidParams message).

(** [if (!args?.x) throw new McpError(InvalidParams, message)], then go on
    with [args.x]. *)
Definition required (o : option string) (message : string) (k : string -> Call) : Call :=
  match o with
  | Some x => if negb (truthy x) then invalidParams message else k x
  | None => invalidParams message
  end.

(** [if (!args?.nctId || !/^NCT\d{8}$/.test(args.nctId)) throw ...] *)
Definition required_nctId (args : Args.t) (k : string -> Call) : Call :=
  match Args.nctId args with
  | Some nctId =>
      if negb (truthy nctId) || negb (RegExp.test_anchored RegExp.NCT_ID nctId)
      then invalidParams "Valid NCT ID is required (format: NCT########)"
      else k nctId
  | None => invalidParams "Valid NCT ID is required (format: NCT########)"
  end.

(** *** search_studies *)

Definition searchStudies_params (args : Args.t) : Params :=
  base_params args
  |> set_if "query.term" PStr (Args.query args)
  |> set_if "query.cond" PStr (Args.condition args)
  |> set_if "query.intr" PStr (Args.intervention args)
  |> set_if "query.locn" PStr (Args.location args)
  |> set_if "filter.phase" PStr (Args.phase args)
  |> set_if "filter.overallStatus" PStr (Args.status args)
  |> set_if "filter.sex" PStr (Args.sex args)
  |> set_if "filter.stdAge" PStr (Args.age args).

Definition handleSearchStudies (args : Args.t) : Call :=
  try_get (searchStudies_params args) (fun data =>
    let studies := studies data ||| [] in
    let results := (fun study => Object.json (formatStudySummary study)) <$> studies in
    Return (ok (Object.json (counted data "studies" results)))).

(** *** get_study_details *)

Definition handleGetStudyDetails (args : Args.t) : Call :=
  required_nctId args (fun nctId =>
    Get {[ "format" := PStr "json"; "query.term" := PStr nctId;
           "filter.ids" := PStr nctId; "pageSize" := PNum 1 ]}
      (fun reply =>
         match reply with
         | Response data =>
             match studies data with
             | Some (study :: _) => Return (ok (formatDetailedStudy study))
             | Some [] | None => Return (failed ("No study found with NCT ID: " +:+ nctId))
             end
         | AxiosFailure error =>
             if bool_decide (response_status error = Some 404)
             then Return (failed ("Study not found: " +:+ nctId))
             else Return (apiError error)
         | OtherFailure message => Throw (Error message)
         end)).

(** *** search_by_location *)

(** [if (o) locationQuery += (locationQuery ? ', ' : '') + o] *)
Definition add_segment (o : option string) (locationQuery : string) : string :=
  match o with
  | Some segment =>
      if truthy segment
      then locationQuery +:+ (if truthy locationQuery then ", " else "") +:+ segment
      else locationQuery
  | None => locationQuery
  end.

Definition locationQuery (args : Args.t) : string :=
  (match Args.country args with
   | Some country => if truthy country then "" +:+ country else ""
   | None => ""
   end)
  |> add_segment (Args.state args)
  |> add_segment (Args.city args)
  |> add_segment (Args.facilityName args).

Definition searchByLocation_params (args : Args.t) : Params :=
  base_params args
  |> set_if "query.locn" PStr (Some (locationQuery args))
  |> (fun params =>
        if given (Args.distance args) && given (Args.city args)
        then set_if "filter.distance" PNum (Args.distance args) params
        else params).

Definition handleSearchByLocation (args : Args.t) : Call :=
  try_get (searchByLocation_params args) (fun data =>
    let studies := studies data ||| [] in
    let results := (fun study => Object.json
        (formatStudySummary study ++ [("locations", Some (locations_upto study 3))]))
      <$> studies in
    Return (ok (Object.json
      (("searchCriteria", Some (Object.json
          [("locationQuery", jstr (locationQuery args));
           ("distance", JNum <$> Args.distance args)]))
       :: counted data "studies" results)))).

(** *** search_by_condition *)

Definition searchByCondition_params (args : Args.t) (condition : string) : Params :=
  <["query.cond" := PStr condition]> (base_params args)
  |> set_if "filter.phase" PStr (Args.phase args)
  |> set_if "filter.overallStatus" PStr (Args.recruitmentStatus args).

Definition handleSearchByCondition (args : Args.t) : Call :=
  required (Args.condition args) "Condition parameter is required" (fun condition =>
    try_get (searchByCondition_params args condition) (fun data =>
      let studies := studies data ||| [] in
      let results := (fun study => Object.json
          (formatStudySummary study ++
           [("conditions", Some (Json.strings (the_conditions study ||| [])));
            ("eligibility", Some (Object.json (eligibility_block study)))]))
        <$> studies in
      Return (ok (Object.json
        (("searchCriteria", Some (Object.json
            [("condition", jstr condition);
             ("phase", JStr <$> Args.phase args);
             ("recruitmentStatus", JStr <$> Args.recruitmentStatus args)]))
         :: counted data "studies" results))))).

(** *** get_trial_statistics *)

Definition filters_json (f : Filters.t) : Json :=
  Object.json [("condition", JStr <$> Filters.condition f);
               ("phase", JStr <$> Filters.phase f);
               ("status", JStr <$> Filters.status f)].

Definition getTrialStatistics_params (args : Args.t) : Params :=
  ({[ "format" := PStr "json"; "pageSize" := PNum 100 ]} : Params)
  |> set_if "query.cond" PStr (Args.filters args ≫= Filters.condition)
  |> set_if "filter.phase" PStr (Args.filters args ≫= Filters.phase)
  |> set_if "filter.overallStatus" PStr (Args.filters args ≫= Filters.status).

Definition handleGetTrialStatistics (args : Args.t) : Call :=
  try_get (getTrialStatistics_params args) (fun data =>
    let studies := studies data ||| [] in
    let stats := calculateStatistics studies (Args.groupBy args) in
    Return (ok (Object.json
      [("totalStudies", jnum (totalCount data ||| 0));
       ("analyzedStudies", jlen studies);
       ("groupBy", jstr (Args.groupBy args ||| "none"));
       ("filters", Some (from_option filters_json (JObj []) (Args.filters args)));
       ("statistics", Some stats)]))).

(** *** search_by_sponsor *)

Definition searchBySponsor_params (args : Args.t) (sponsor : string) : Params :=
  <["query.spons" := PStr sponsor]> (base_params args)
  |> set_if "filter.leadSponsorClass" PStr (Args.sponsorType args).

Definition handleSearchBySponsor (args : Args.t) : Call :=
  required (Args.sponsor args) "Sponsor parameter is required" (fun sponsor =>
    try_get (searchBySponsor_params args sponsor) (fun data =>
      let studies := studies data ||| [] in
      let results := (fun study => Object.json
          (formatStudySummary study ++
           [("sponsorDetails", leadSponsor_json <$> the_leadSponsor study)]))
        <$> studies in
      Return (ok (Object.json
        (("searchCriteria", Some (Object.json
            [("sponsor", jstr sponsor);
             ("sponsorType", JStr <$> Args.sponsorType args)]))
         :: counted data "studies" results))))).

(** *** search_by_intervention *)

Definition searchByIntervention_params (args : Args.t) (intervention : string) : Params :=
  <["query.intr" := PStr intervention]> (base_params args)
  |> set_if "filter.interventionType" PStr (Args.interventionType args)
  |> set_if "filter.phase" PStr (Args.phase args).

Definition handleSearchByIntervention (args : Args.t) : Call :=
  required (Args.intervention args) "Intervention parameter is required" (fun intervention =>
    try_get (searchByIntervention_params args intervention) (fun data =>
      let studies := studies data ||| [] in
      let results := (fun study => Object.json (formatStudySummary study)) <$> studies in
      Return (ok (Object.json
        (("searchCriteria", Some (Object.json
            [("intervention", jstr intervention);
             ("interventionType", JStr <$> Args.interventionType args);
             ("phase", JStr <$> Args.phase args)]))
         :: counted data "studies" results))))).

(** *** get_recruiting_studies *)

Definition getRecruitingStudies_params (args : Args.t) : Params :=
  <["filter.overallStatus" := PStr "RECRUITING"]> (base_params args)
  |> set_if "query.cond" PStr (Args.condition args)
  |> set_if "query.locn" PStr (Args.location args)
  |> set_if "filter.stdAge" PStr (Args.ageGroup args).

Definition handleGetRecruitingStudies (args : Args.t) : Call :=
  try_get (getRecruitingStudies_params args) (fun data =>
    let studies := studies data ||| [] in
    let results := (fun study => Object.json
        (formatStudySummary study ++
         [("eligibility", Some (Object.json (eligibility_block study)));
          ("locations", Some (locations_upto study 2))]))
      <$> studies in
    Return (ok (Object.json
      (("searchCriteria", Some (Object.json
          [("recruitmentStatus", jstr "RECRUITING");
           ("condition", JStr <$> Args.condition args);
           ("location", JStr <$> Args.location args);
           ("ageGroup", JStr <$> Args.ageGroup args)]))
       :: counted data "studies" results)))).

(** *** search_by_date_range *)

Definition searchByDateRange_params (args : Args.t) : Params :=
  base_params args
  |> set_if "filter.studyStartDateFrom" PStr (Args.startDateFrom args)
  |> set_if "filter.studyStartDateTo" PStr (Args.startDateTo args)
  |> set_if "filter.primaryCompletionDateFrom" PStr (Args.completionDateFrom args)
  |> set_if "filter.primaryCompletionDateTo" PStr (Args.completionDateTo args)
  |> set_if "query.cond" PStr (Args.condition args).

Definition handleSearchByDateRange (args : Args.t) : Call :=
  try_get (searchByDateRange_params args) (fun data =>
    let studies := studies data ||| [] in
    let results := (fun study => Object.json
        (formatStudySummary study ++
         [("dates", Some (Object.json
             [("startDate", JStr <$> the_startDate study);
              ("primaryCompletionDate", JStr <$> the_completionDate study)]))]))
      <$> studies in
    Return (ok (Object.json
      (("searchCriteria", Some (Object.json
          [("startDateFrom", JStr <$> Args.startDateFrom args);
           ("startDateTo", JStr <$> Args.startDateTo args);
           ("completionDateFrom", JStr <$> Args.completionDateFrom args);
           ("completionDateTo", JStr <$> Args.completionDateTo args);
           ("condition", JStr <$> Args.condition args)]))
       :: counted data "studies" results)))).

(** *** get_studies_with_results *)

Definition getStudiesWithResults_params (args : Args.t) : Params :=
  <["filter.hasResults" := PBool true]>
    (<["filter.overallStatus" := PStr "COMPLETED"]> (base_params args))
  |> set_if "query.cond" PStr (Args.condition args)
  |> set_if "query.intr" PStr (Args.intervention args)
  |> set_if "filter.primaryCompletionDateFrom" PStr (Args.completedAfter args).

Definition handleGetStudiesWithResults (args : Args.t) : Call :=
  try_get (getStudiesWithResults_params args) (fun data =>
    let studies := studies data ||| [] in
    let results := (fun study => Object.json
        (formatStudySummary study ++
         [("completionDate", JStr <$> the_completionDate study);
          ("hasResults", Some (JBool true))]))
      <$> studies in
    Return (ok (Object.json
      (("searchCriteria", Some (Object.json
          [("status", jstr "COMPLETED");
           ("hasResults", Some (JBool true));
           ("condition", JStr <$> Args.condition args);
           ("intervention", JStr <$> Args.intervention args);
           ("completedAfter", JStr <$> Args.completedAfter args)]))
       :: counted data "studies" results)))).

(** *** search_rare_diseases *)

Definition searchRareDiseases_params (args : Args.t) (rareDisease : string) : Params :=
  <["query.cond" := PStr rareDisease]> (base_params args)
  |> set_if "filter.overallStatus" PStr (Args.recruitmentStatus args)
  |> <["query.term" := PStr (rareDisease +:+ " OR orphan OR rare")]>.

Definition handleSearchRareDiseases (args : Args.t) : Call :=
  required (Args.rareDisease args) "Rare disease parameter is required" (fun rareDisease =>
    try_get (searchRareDiseases_params args rareDisease) (fun data =>
      let studies := studies data ||| [] in
      let results := (fun study => Object.json
          (formatStudySummary study ++
           [("conditions", Some (Json.strings (the_conditions study ||| [])));
            ("eligibility", Some (Object.json (eligibility_ages study)))]))
        <$> studies in
      Return (ok (Object.json
        (("searchCriteria", Some (Object.json
            [("rareDisease", jstr rareDisease);
             ("recruitmentStatus", JStr <$> Args.recruitmentStatus args);
             ("searchNote", jstr "Includes orphan and rare disease designations")]))
         :: counted data "studies" results))))).

(** *** get_pediatric_studies *)

Definition age_bounds (ageRange : string) (params : Params) : Params :=
  if String.eqb ageRange "INFANT" then
    <["filter.maximumAge" := PStr "2 Years"]> (<["filter.minimumAge" := PStr "0 Years"]> params)
  else if String.eqb ageRange "CHILD" then
    <["filter.maximumAge" := PStr "12 Years"]> (<["filter.minimumAge" := PStr "2 Years"]> params)
  else if String.eqb ageRange "ADOLESCENT" then
    <["filter.maximumAge" := PStr "18 Years"]> (<["filter.minimumAge" := PStr "12 Years"]> params)
  else params.

Definition getPediatricStudies_params (args : Args.t) : Params :=
  <["filter.stdAge" := PStr "CHILD"]> (base_params args)
  |> set_if "query.cond" PStr (Args.condition args)
  |> (fun params =>
        match Args.ageRange args with
        | Some ageRange => if truthy ageRange then age_bounds ageRange params else params
        | None => params
        end)
  |> set_if "filter.overallStatus" PStr (Args.recruitmentStatus args).

Definition handleGetPediatricStudies (args : Args.t) : Call :=
  try_get (getPediatricStudies_params args) (fun data =>
    let studies := studies data ||| [] in
    let results := (fun study => Object.json
        (formatStudySummary study ++
         [("conditions", Some (Json.strings (the_conditions study ||| [])));
          ("eligibility", Some (Object.json (eligibility_block study)));
          ("locations", Some (locations_upto study 2))]))
      <$> studies in
    Return (ok (Object.json
      (("searchCriteria", Some (Object.json
          [("targetPopulation", jstr "PEDIATRIC");
           ("condition", JStr <$> Args.condition args);
           ("ageRange", JStr <$> Args.ageRange args);
           ("recruitmentStatus", JStr <$> Args.recruitmentStatus args)]))
       :: counted data "studies" results)))).

(** *** get_similar_studies *)

(** [searchParams] of the second request: the [switch (similarityType)]. *)
Definition similar_params (args : Args.t) (referenceStudy : Study.t) : Params :=
  let similarityType := Args.similarityType args ||| "CONDITION" in
  let searchParams := base_params args in
  if String.eqb similarityType "CONDITION" then
    set_if "query.cond" PStr (the_conditions referenceStudy ≫= head) searchParams
  else if String.eqb similarityType "SPONSOR" then
    set_if "query.spons" PStr (name <$> the_leadSponsor referenceStudy) searchParams
  else if String.eqb similarityType "PHASE" then
    set_if "filter.phase" PStr (the_phases referenceStudy ≫= head) searchParams
  else searchParams.

(** [studies.filter(study => study...nctId !== args.nctId)] *)
Definition other_than (nctId : string) (studies : list Study.t) : list Study.t :=
  List.filter (fun study => negb (String.eqb (the_nctId study) nctId)) studies.

Definition handleGetSimilarStudies (args : Args.t) : Call :=
  required_nctId args (fun nctId =>
    try_get {[ "format" := PStr "json"; "query.term" := PStr nctId; "pageSize" := PNum 1 ]}
      (fun referenceData =>
         match studies referenceData with
         | Some (referenceStudy :: _) =>
             try_get (similar_params args referenceStudy) (fun data =>
               let studies := studies data ||| [] in
               let results := (fun study => Object.json (formatStudySummary study))
                                <$> other_than nctId studies in
               Return (ok (Object.json
                 ([("referenceStudy", Some (Object.json
                      [("nctId", jstr nctId);
                       ("title", jstr (briefTitle (identificationModule
                                                    (protocolSection referenceStudy))))]));
                   ("similarityType", jstr (Args.similarityType args ||| "CONDITION"))]
                  ++ counted data "similarStudies" results))))
         | Some [] | None =>
             Return (failed ("Reference study not found: " +:+ nctId))
         end)).

(** *** search_by_primary_outcome *)

Definition searchByPrimaryOutcome_params (args : Args.t) (outcome : string) : Params :=
  <["query.outc" := PStr outcome]> (base_params args)
  |> set_if "query.cond" PStr (Args.condition args)
  |> set_if "filter.phase" PStr (Args.phase args).

Definition handleSearchByPrimaryOutcome (args : Args.t) : Call :=
  required (Args.outcome args) "Outcome parameter is required" (fun outcome =>
    try_get (searchByPrimaryOutcome_params args outcome) (fun data =>
      let studies := studies data ||| [] in
      let results := (fun study => Object.json (formatStudySummary study)) <$> studies in
      Return (ok (Object.json
        (("searchCriteria", Some (Object.json
            [("primaryOutcome", jstr outcome);
             ("condition", JStr <$> Args.condition args);
             ("phase", JStr <$> Args.phase args)]))
         :: counted data "studies" results))))).

(** *** search_by_eligibility_criteria *)

Definition searchByEligibilityCriteria_params (args : Args.t) : Params :=
  base_params args
  |> set_if "filter.minimumAge" PStr (Args.minAge args)
  |> set_if "filter.maximumAge" PStr (Args.maxAge args)
  |> set_if "filter.sex" PStr (Args.sex args)
  |> (fun params =>
        match Args.healthyVolunteers args with
        | Some healthyVolunteers => <["filter.healthyVolunteers" := PBool healthyVolunteers]> params
        | None => params
        end)
  |> set_if "query.cond" PStr (Args.condition args)
  |> set_if "query.eligibility" PStr (Args.inclusionKeywords args).

(** One entry of [results] in [handleSearchByEligibilityCriteria]. *)
Definition eligibility_result (study : Study.t) : Json :=
  Object.json
    (formatStudySummary study ++
     [("eligibility", Some (Object.json
         (eligibility_block study ++
          [("criteriaPreview", jstr (criteriaPreview study))])))]).

(** The payload of the eligibility tool for an upstream answer. *)
Definition eligibility_payload (args : Args.t) (data : StudySearchResponse) : Json :=
  let studies := studies data ||| [] in
  let filteredStudies := exclusion_filter (Args.exclusionKeywords args) studies in
  let results := eligibility_result <$> filteredStudies in
  Object.json
    (("searchCriteria", Some (Object.json
        [("minAge", JStr <$> Args.minAge args);
         ("maxAge", JStr <$> Args.maxAge args);
         ("sex", JStr <$> Args.sex args);
         ("healthyVolunteers", JBool <$> Args.healthyVolunteers args);
         ("condition", JStr <$> Args.condition args);
         ("inclusionKeywords", JStr <$> Args.inclusionKeywords args);
         ("exclusionKeywords", JStr <$> Args.exclusionKeywords args)]))
     :: counted data "studies" results).

Definition handleSearchByEligibilityCriteria (args : Args.t) : Call :=
  try_get (searchByEligibilityCriteria_params args) (fun data =>
    Return (ok (eligibility_payload args data))).

(** *** search_international_studies *)

Definition searchInternationalStudies_params (args : Args.t) : Params :=
  base_params args
  |> set_if "query.cond" PStr (Args.condition args)
  |> set_if "filter.phase" PStr (Args.phase args)
  |> set_if "query.locn" PStr (Args.includeCountry args).

(** One entry of [results] in [handleSearchInternationalStudies]. *)
Definition international_result (study : Study.t) : Json :=
  let locations := the_locations study ||| [] in
  let countries := countries study in
  Object.json
    (formatStudySummary study ++
     [("internationalDetails", Some (Object.json
         [("totalCountries", jlen countries);
          ("countries", Some (Json.strings countries));
          ("totalLocations", jlen locations);
          ("sampleLocations", Some (JArr (location_json <$> take 3 locations)))]))]).

(** [filteredStudies] of [handleSearchInternationalStudies]. *)
Definition international_filter (args : Args.t) (studies : list Study.t) : list Study.t :=
  List.filter (international args) studies.

Definition handleSearchInternationalStudies (args : Args.t) : Call :=
  try_get (searchInternationalStudies_params args) (fun data =>
    let studies := studies data ||| [] in
    let filteredStudies := international_filter args studies in
    let results := international_result <$> filteredStudies in
    Return (ok (Object.json
      (("searchCriteria", Some (Object.json
          [("condition", JStr <$> Args.condition args);
           ("excludeCountry", JStr <$> Args.excludeCountry args);
           ("includeCountry", JStr <$> Args.includeCountry args);
           ("minCountries", JNum <$> Args.minCountries args);
           ("phase", JStr <$> Args.phase args);
           ("note", jstr "Only showing studies with 2+ countries")]))
       :: counted data "internationalStudies" results)))).

(** *** get_study_timeline and the dispatcher

    The timeline tool reads the clock: [futureDate] is the date 30 days
    after the call in ISO form ([toISOString().split('T')[0]]), and
    [daysFromStart date] is what is serialised for
    [Math.floor((new Date().getTime() - new Date(date).getTime()) / 86400000)]. *)

Section Clock.
Variable futureDate : string.
Variable daysFromStart : string -> Json.

Definition getStudyTimeline_params (args : Args.t) : Params :=
  base_params args
  |> set_if "query.cond" PStr (Args.condition args)
  |> set_if "query.spons" PStr (Args.sponsor args)
  |> set_if "filter.phase" PStr (Args.phase args)
  |> (fun params =>
        let timelineType := Args.timelineType args ||| "CURRENT" in
        if String.eqb timelineType "CURRENT" then
          <["filter.overallStatus" :=
              PStr "RECRUITING,NOT_YET_RECRUITING,ACTIVE_NOT_RECRUITING"]> params
        else if String.eqb timelineType "COMPLETED" then
          <["filter.overallStatus" := PStr "COMPLETED"]> params
        else if String.eqb timelineType "UPCOMING" then
          <["filter.studyStartDateFrom" := PStr futureDate]>
            (<["filter.overallStatus" := PStr "NOT_YET_RECRUITING"]> params)
        else params).

Definition handleGetStudyTimeline (args : Args.t) : Call :=
  try_get (getStudyTimeline_params args) (fun data =>
    let studies := studies data ||| [] in
    let results := (fun study => Object.json
        (formatStudySummary study ++
         [("timeline", Some (Object.json
             [("startDate", JStr <$> the_startDate study);
              ("primaryCompletionDate", JStr <$> the_completionDate study);
              ("status", jstr (overallStatus (statusModule (protocolSection study))));
              ("daysFromStart",
               Some (match the_startDate study with
                     | Some date => if truthy date then daysFromStart date else JNull
                     | None => JNull
                     end))]))]))
      <$> studies in
    Return (ok (Object.json
      (("searchCriteria", Some (Object.json
          [("condition", JStr <$> Args.condition args);
           ("sponsor", JStr <$> Args.sponsor args);
           ("phase", JStr <$> Args.phase args);
           ("timelineType", jstr (Args.timelineType args ||| "CURRENT"))]))
       :: counted data "studies" results)))).

(** The 17 registered tools. *)
Inductive Tool :=
| search_studies | get_study_details | search_by_location | search_by_condition
| get_trial_statistics | search_by_sponsor | search_by_intervention
| get_recruiting_studies | search_by_date_range | get_studies_with_results
| search_rare_diseases | get_pediatric_studies | get_similar_studies
| search_by_primary_outcome | search_by_eligibility_criteria
| get_study_timeline | search_international_studies.

Definition all_tools : list Tool :=
  [search_studies; get_study_details; search_by_location; search_by_condition;
   get_trial_statistics; search_by_sponsor; search_by_intervention;
   get_recruiting_studies; search_by_date_range; get_studies_with_results;
   search_rare_diseases; get_pediatric_studies; get_similar_studies;
   search_by_primary_outcome; search_by_eligibility_criteria;
   get_study_timeline; search_international_studies].

Definition tool_name (t : Tool) : string :=
  match t with
  | search_studies => "search_studies"
  | get_study_details => "get_study_details"
  | search_by_location => "search_by_location"
  | search_by_condition => "search_by_condition"
  | get_trial_statistics => "get_trial_statistics"
  | search_by_sponsor => "search_by_sponsor"
  | search_by_intervention => "search_by_intervention"
  | get_recruiting_studies => "get_recruiting_studies"
  | search_by_date_range => "search_by_date_range"
  | get_studies_with_results => "get_studies_with_results"
  | search_rare_diseases => "search_rare_diseases"
  | get_pediatric_studies => "get_pediatric_studies"
  | get_similar_studies => "get_similar_studies"
  | search_by_primary_outcome => "search_by_primary_outcome"
  | search_by_eligibility_criteria => "search_by_eligibility_criteria"
  | get_study_timeline => "get_study_timeline"
  | search_international_studies => "search_international_studies"
  end.

(** The [maximum] the tool's input schema declares for [pageSize]; the
    schemas of get_study_details and get_trial_statistics have no
    [pageSize] property. *)
Definition schema_pageSize_max (t : Tool) : option Z :=
  match t with
  | get_study_details | get_trial_statistics => None
  | get_recruiting_studies | get_pediatric_studies
  | get_similar_studies | get_study_timeline => Some 50
  | _ => Some 100
  end.

(** The [case] of the dispatcher's [switch]. *)
Definition handler (t : Tool) : Args.t -> Call :=
  match t with
  | search_studies => handleSearchStudies
  | get_study_details => handleGetStudyDetails
  | search_by_location => handleSearchByLocation
  | search_by_condition => handleSearchByCondition
  | get_trial_statistics => handleGetTrialStatistics
  | search_by_sponsor => handleSearchBySponsor
  | search_by_intervention => handleSearchByIntervention
  | get_recruiting_studies => handleGetRecruitingStudies
  | search_by_date_range => handleSearchByDateRange
  | get_studies_with_results => handleGetStudiesWithResults
  | search_rare_diseases => handleSearchRareDiseases
  | get_pediatric_studies => handleGetPediatricStudies
  | get_similar_studies => handleGetSimilarStudies
  | search_by_primary_outcome => handleSearchByPrimaryOutcome
  | search_by_eligibility_criteria => handleSearchByEligibilityCriteria
  | get_study_timeline => handleGetStudyTimeline
  | search_international_studies => handleSearchInternationalStudies
  end.

Definition tool_named (name : string) : option Tool :=
  List.find (fun t => String.eqb (tool_name t) name) all_tools.

(** The dispatcher's [catch]: an [McpError] is thrown on, any other error
    is wrapped into an [InternalError]. *)
Fixpoint rethrow (c : Call) : Call :=
  match c with
  | Return result => Return result
  | Throw (McpError code message) => Throw (McpError code message)
  | Throw (Error message) => Throw (McpError InternalError message)
  | Get params k => Get params (fun reply => rethrow (k reply))
  end.

(** The [CallToolRequestSchema] request handler. *)
Definition callTool (name : string) (args : Args.t) : Call :=
  rethrow
    match tool_named name with
    | Some t => handler t args
    | None => Throw (McpError MethodNotFound ("Unknown tool: " +:+ name))
    end.

End Clock.

End Server.

(** ** The REST wrapper ([handleToolCall] of the HTTP server)

    The wrapper calls the handler of the named tool, parses the text of its
    result with [JSON.parse] and answers with [res.json].  Three things come
    from outside the repository and are parameters: [JSON.parse] on a text
    that starts like a JSON value, the message of the [SyntaxError] that
    [JSON.parse] throws, and the [message] property of a thrown [McpError]
    (built by the SDK from code and text).  A text written by
    [JSON.stringify] parses back to the value it was written from. *)

Module Http.

(** What [res.status(...).json(...)] sends; [res.json] alone sends 200. *)
Record Response := { status : Z; body : Json }.

(** White space of the JSON grammar. *)
Definition isJsonSpace (c : ascii) : bool :=
  let n := JsString.code c in
  (n =? 32)%nat || (n =? 9)%nat || (n =? 10)%nat || (n =? 13)%nat.

(** The characters a JSON value can start with: a digit or [-] (number),
    the double quote, code 34 (string), a brace (object), a bracket
    (array), or the first letter of [true], [false] or [null]. *)
Definition startsJsonValue (c : ascii) : bool :=
  JsString.isDigit c ||
  (JsString.code c =? 34)%nat ||
  existsb (Ascii.eqb c) ["{"; "["; "-"; "t"; "f"; "n"]%char.

Fixpoint firstToken (text : string) : option ascii :=
  match text with
  | EmptyString => None
  | String c rest => if isJsonSpace c then firstToken rest else Some c
  end.

Section Wrapper.
Variable parseValue : string -> option Json.
Variable syntaxError : string -> string.
Variable mcpMessage : ErrorCode -> string -> string.
Variable futureDate : string.
Variable daysFromStart : string -> Json.

(** [JSON.parse(text)]; [None] stands for the [SyntaxError] thrown. *)
Definition JSON_parse (text : string) : option Json :=
  match firstToken text with
  | Some c => if startsJsonValue c then parseValue text else None
  | None => None
  end.

(** [error.message] *)
Definition errorMessage (e : Exception) : string :=
  match e with
  | McpError code message => mcpMessage code message
  | Error message => message
  end.

(** The tool result as a JSON value (the [data: result] of the fallback):
    [isError] is a property of error results only. *)
Definition result_json (result : ToolResult) (text : string) : Json :=
  Object.json
    [("content", Some (JArr [Object.json [("type", Some (JStr "text"));
                                          ("text", Some (JStr text))]]));
     ("isError", if isError result then Some (JBool true) else None)].

Definition success (toolName : string) (data : Json) (result : ToolResult) : Response :=
  {| status := 200;
     body := Object.json [("success", Some (JBool true));
                          ("tool", Some (JStr toolName));
                          ("data", Some data);
                          ("isError", Some (JBool (Some (isError result) ||| false)))] |}.

(** The [catch] block. *)
Definition failure (toolName : string) (message : string) : Response :=
  {| status := 500;
     body := Object.json [("success", Some (JBool false));
                          ("tool", Some (JStr toolName));
                          ("error", Some (JStr message))] |}.

(** From "Parse the MCP response format" to the end of the [try] block. *)
Definition respond (toolName : string) (result : ToolResult) : Response :=
  match content result with
  | Stringified value => success toolName value result
  | Text text =>
      if truthy text then
        match JSON_parse text with
        | Some data => success toolName data result
        | None => failure toolName (syntaxError text)
        end
      else success toolName (result_json result text) result
  end.

(** [handleToolCall(toolName, args, res)]: the requests sent upstream and
    the answer written to [res]. *)
Definition handleToolCall (upstream : Params -> Reply) (toolName : string)
    (args : Args.t) : list Params * Response :=
  match Server.tool_named toolName with
  | Some t =>
      let (sent, out) := run upstream (Server.handler futureDate daysFromStart t args) in
      (sent,
       match out with
       | inl result => respond toolName result
       | inr e => failure toolName (errorMessage e)
       end)
  | None =>
      ([], {| status := 404;
              body := Object.json [("error", Some (JStr ("Unknown tool: " +:+ toolName)))] |})
  end.

End Wrapper.

End Http.

(** ** Notions used in the statements *)

(** The identifier format in the spec's words: the fixed prefix [NCT]
    followed by exactly eight digits. *)
Definition wellFormed (s : string) : Prop :=
  exists digits : list ascii,
    s = "NCT" +:+ string_of_list_ascii digits /\
    length digits = 8%nat /\
    forallb JsString.isDigit digits = true.

(** The first request of the similar-studies tool: the exact-term lookup
    of the reference study. *)
Definition reference_params (nctId : string) : Params :=
  {[ "format" := PStr "json"; "query.term" := PStr nctId; "pageSize" := PNum 1 ]}.

(** The page size a tool forwards for a [pageSize] argument: 10 when the
    argument is missing or 0, the argument itself otherwise. *)
Definition forwarded_pageSize (pageSize : option Z) : Z :=
  match pageSize with
  | None => 10
  | Some 0 => 10
  | Some n => n
  end.

(** Page-size guarding as the spec words it: for a [pageSize] outside
    [1, max] the handler either throws a client error before any request,
    or the request it sends carries a value inside the bounds. *)
Definition pageSize_guarded : Prop :=
  forall futureDate daysFromStart (t : Server.Tool) (max n : Z) (args : Args.t),
    Server.schema_pageSize_max t = Some max ->
    Args.pageSize args = Some n ->
    ~ (1 <= n <= max) ->
    match Server.handler futureDate daysFromStart t args with
    | Throw (McpError InvalidParams _) => True
    | Get params _ =>
        exists m, params !! "pageSize" = Some (PNum m) /\ 1 <= m <= max
    | _ => False
    end.

(** The criteria preview as the spec words it: the default string when the
    criteria text is absent, the text cut to 200 characters otherwise. *)
Definition criteriaPreview_as_specified : Prop :=
  forall study : Study.t,
    Projector.criteriaPreview study =
    match Projector.the_criteria study with
    | None => "Not available"
    | Some text => JsString.substring text 0 200
    end.

(** The field of the reference record the similarity switch reads. *)
Definition selected_field (args : Args.t) (referenceStudy : Study.t) : option string :=
  let similarityType := Args.similarityType args ||| "CONDITION" in
  if String.eqb similarityType "CONDITION"
  then Projector.the_conditions referenceStudy ≫= head
  else if String.eqb similarityType "SPONSOR"
  then Study.name <$> Projector.the_leadSponsor referenceStudy
  else if String.eqb similarityType "PHASE"
  then Projector.the_phases referenceStudy ≫= head
  else None.

(** No value of the query is the empty string. *)
Definition no_empty_value (params : Params) : Prop :=
  forall key, params !! key <> Some (PStr "").

(** The phrase starts with a white-space character. *)
Definition leading_space (s : string) : bool :=
  match s with
  | EmptyString => false
  | String c _ => JsString.isSpace c
  end.

(** The phrase ends with a white-space character. *)
Fixpoint trailing_space (s : string) : bool :=
  match s with
  | EmptyString => false
  | String c EmptyString => JsString.isSpace c
  | String _ s' => trailing_space s'
  end.

(** The phrase consists of white space only. *)
Fixpoint only_space (s : string) : bool :=
  match s with
  | EmptyString => true
  | String c s' => JsString.isSpace c && only_space s'
  end.

(** The argument a tool requires, the upstream parameter it becomes, and
    the text of the error thrown when it is missing (the identifier tools
    check their [nctId] separately). *)
Definition required_argument (t : Server.Tool)
  : option ((Args.t -> option string) * string * string) :=
  match t with
  | Server.search_by_condition =>
      Some (Args.condition, "query.cond", "Condition parameter is required")
  | Server.search_by_sponsor =>
      Some (Args.sponsor, "query.spons", "Sponsor parameter is required")
  | Server.search_by_intervention =>
      Some (Args.intervention, "query.intr", "Intervention parameter is required")
  | Server.search_rare_diseases =>
      Some (Args.rareDisease, "query.cond", "Rare disease parameter is required")
  | Server.search_by_primary_outcome =>
      Some (Args.outcome, "query.outc", "Outcome parameter is required")
  | _ => None
  end.

(** The two tools that take a study identifier. *)
Definition takes_nctId (t : Server.Tool) : bool :=
  match t with
  | Server.get_study_details | Server.get_similar_studies => true
  | _ => false
  end.

(** What the dispatcher's [catch] makes of a thrown error. *)
Definition wrapped (e : Exception) : Exception :=
  match e with
  | McpError code message => McpError code message
  | Error message => McpError InternalError message
  end.

(** The non-empty location segments of the arguments, in the order
    country, state, city, facility name. *)
Definition location_segments (args : Args.t) : list string :=
  List.filter truthy
    (omap id [Args.country args; Args.state args; Args.city args;
              Args.facilityName args]).

(** The three pediatric age buckets: minimum and maximum age. *)
Definition age_bucket (ageRange : string) : option (string * string) :=
  if String.eqb ageRange "INFANT" then Some ("0 Years", "2 Years")
  else if String.eqb ageRange "CHILD" then Some ("2 Years", "12 Years")
  else if String.eqb ageRange "ADOLESCENT" then Some ("12 Years", "18 Years")
  else None.

(** How many of the studies have the grouping key [key]. *)
Definition occurrences (field key : string) (studies : list Study.t) : Z :=
  Z.of_nat (length (List.filter
    (fun study => String.eqb (Derived.group_key field study) key) studies)).

(** The count recorded for [key] in a list of groups. *)
Fixpoint group_count (key : string) (groups : list (string * Z)) : option Z :=
  match groups with
  | [] => None
  | (k, n) :: rest => if String.eqb k key then Some n else group_count key rest
  end.

(** The sum of the counts of a list of groups. *)
Definition groups_total (groups : list (string * Z)) : Z :=
  fold_right (fun g total => snd g + total) 0 groups.

(** The sum of the numeric properties of a JSON object. *)
Definition object_total (j : Json) : Z :=
  match j with
  | JObj fields =>
      fold_right (fun f total =>
                    match snd f with JNum n => n + total | _ => total end) 0 fields
  | _ => 0
  end.

(** The upstream parameter a similarity type searches by. *)
Definition similarity_key (similarityType : string) : option string :=
  if String.eqb similarityType "CONDITION" then Some "query.cond"
  else if String.eqb similarityType "SPONSOR" then Some "query.spons"
  else if String.eqb similarityType "PHASE" then Some "filter.phase"
  else None.

(** The property under which a tool's payload lists its studies. *)
Definition list_key (t : Server.Tool) : string :=
  match t with
  | Server.get_similar_studies => "similarStudies"
  | Server.search_international_studies => "internationalStudies"
  | _ => "studies"
  end.

(** The four texts an error-flagged result can start with. *)
Definition error_prefixes : list string :=
  ["Clinical Trials API error: "; "No study found with NCT ID: ";
   "Study not found: "; "Reference study not found: "].

(** A normal result: a JSON payload, not flagged. *)
Definition normal_result (result : ToolResult) : Prop :=
  isError result = false /\ exists payload, content result = Stringified payload.

(** An error result: flagged, with a plain text that starts with one of
    the four prefixes. *)
Definition error_result (result : ToolResult) : Prop :=
  isError result = true /\
  exists prefix rest, prefix ∈ error_prefixes /\ content result = Text (prefix +:+ rest).

(** ** Sample data *)

Module Sample.
Import Study.

(** A study with the given identifier, criteria text and one location per
    listed country; everything else optional is missing. *)
Definition study (id : string) (criteria : option string) (countries : list string) : Study.t :=
  {| protocolSection := {|
       identificationModule :=
         {| nctId := id; briefTitle := "Trial " +:+ id; officialTitle := None |};
       statusModule :=
         {| overallStatus := "RECRUITING"; startDateStruct := None;
            primaryCompletionDateStruct := None |};
       sponsorCollaboratorsModule := None;
       conditionsModule := None;
       designModule := None;
       contactsLocationsModule :=
         Some {| locations := Some ((fun c =>
                   {| facility := "Site"; city := "City"; state := None; country := c |})
                   <$> countries) |};
       eligibilityModule :=
         Some {| eligibilityCriteria := criteria; healthyVolunteers := false;
                 sex := "ALL"; minimumAge := None; maximumAge := None |} |} |}.

(** A study that has only its required fields. *)
Definition bare (id : string) : Study.t :=
  {| protocolSection := {|
       identificationModule :=
         {| nctId := id; briefTitle := "Trial " +:+ id; officialTitle := None |};
       statusModule :=
         {| overallStatus := "COMPLETED"; startDateStruct := None;
            primaryCompletionDateStruct := None |};
       sponsorCollaboratorsModule := None;
       conditionsModule := None;
       designModule := None;
       contactsLocationsModule := None;
       eligibilityModule := None |} |}.

(** An argument bag with the given properties and nothing else. *)
Definition args (pageSize : option Z) (nctId similarityType exclusionKeywords
    excludeCountry : option string) (minCountries : option Z) : Args.t :=
  {| Args.query := None; Args.condition := None; Args.intervention := None;
     Args.location := None; Args.phase := None; Args.status := None;
     Args.sex := None; Args.age := None; Args.pageSize := pageSize;
     Args.nctId := nctId; Args.country := None; Args.state := None;
     Args.city := None; Args.facilityName := None; Args.distance := None;
     Args.recruitmentStatus := None; Args.groupBy := None; Args.filters := None;
     Args.sponsor := None; Args.sponsorType := None; Args.interventionType := None;
     Args.ageGroup := None; Args.startDateFrom := None; Args.startDateTo := None;
     Args.completionDateFrom := None; Args.completionDateTo := None;
     Args.completedAfter := None; Args.rareDisease := None; Args.ageRange := None;
     Args.similarityType := similarityType; Args.outcome := None;
     Args.minAge := None; Args.maxAge := None; Args.healthyVolunteers := None;
     Args.exclusionKeywords := exclusionKeywords; Args.inclusionKeywords := None;
     Args.timelineType := None; Args.excludeCountry := excludeCountry;
     Args.includeCountry := None; Args.minCountries := minCountries |}.

(** An upstream that answers a request whose [query.term] is [id] with
    [found] and every other request with [page]. *)
Definition upstream (id : string) (found page : StudySearchResponse) (params : Params) : Reply :=
  match params !! "query.term" with
  | Some (PStr term) => if String.eqb term id then Response found else Response page
  | _ => Response page
  end.

(** An upstream that always answers with the same page. *)
Definition always (page : StudySearchResponse) (params : Params) : Reply := Response page.

End Sample.

(** * Properties *)

(** ** The JavaScript primitives on small inputs *)

Example includes_1 : JsString.includes "no pregnant women" "pregnant" = true.
Proof. reflexivity. Qed.

Example split_1 : JsString.split_ws " a  b " = [""; "a"; "b"; ""].
Proof. reflexivity. Qed.

Example split_2 : JsString.split_ws "hiv  cancer" = ["hiv"; "cancer"].
Proof. reflexivity. Qed.

Example substring_1 : JsString.substring "eligibility" 0 4 = "elig".
Proof. reflexivity. Qed.

Example toLowerCase_1 : JsString.toLowerCase "HIV Positive" = "hiv positive".
Proof. reflexivity. Qed.

Example nct_1 : RegExp.test_anchored RegExp.NCT_ID "NCT00000419" = true.
Proof. reflexivity. Qed.

Example nct_2 : RegExp.test_anchored RegExp.NCT_ID "NCT0000041" = false.
Proof. reflexivity. Qed.

Example nct_3 : RegExp.test_anchored RegExp.NCT_ID "NCT000004190" = false.
Proof. reflexivity. Qed.

Example countries_1 :
  JsSet.of_list ["France"; "Spain"; "France"] = ["France"; "Spain"].
Proof. reflexivity. Qed.

(** ** Identifier validator *)

Lemma wellFormed_length s : wellFormed s -> String.length s = 11%nat.
Proof.
  intros (digits & -> & Hlen & _).
  do 9 (destruct digits as [|? digits]; try discriminate Hlen).
  reflexivity.
Qed.

Lemma test_wellFormed s :
  RegExp.test_anchored RegExp.NCT_ID s = true <-> wellFormed s.
Proof.
  split.
  - unfold RegExp.test_anchored, RegExp.NCT_ID. cbn [RegExp.matches].
    do 3 (destruct s as [|? s]; [discriminate|];
          intros [E%Ascii.eqb_eq H]%andb_prop; subst; revert H).
    do 8 (destruct s as [|? s]; [discriminate|];
          intros [? H]%andb_prop; revert H).
    destruct s; [intros _|discriminate].
    eexists [_; _; _; _; _; _; _; _]. split; [reflexivity|]. split; [reflexivity|].
    cbn [forallb]. repeat (apply andb_true_intro; split; try assumption). reflexivity.
  - intros (digits & -> & Hlen & Hdig).
    do 9 (destruct digits as [|? digits]; try discriminate Hlen).
    cbn [forallb] in Hdig.
    repeat (apply andb_prop in Hdig as [? Hdig]).
    unfold RegExp.test_anchored, RegExp.NCT_ID. cbn.
    repeat (apply andb_true_intro; split; try assumption); reflexivity.
Qed.

Lemma test_not_wellFormed s :
  RegExp.test_anchored RegExp.NCT_ID s = false <-> ~ wellFormed s.
Proof.
  rewrite <- test_wellFormed.
  destruct (RegExp.test_anchored RegExp.NCT_ID s); split; easy.
Qed.

(** ** Running a handler *)

Lemma run_Get upstream params k :
  run upstream (Get params k) =
  (params :: fst (run upstream (k (upstream params))),
   snd (run upstream (k (upstream params)))).
Proof. cbn [run]. destruct (run upstream (k (upstream params))). reflexivity. Qed.

Lemma requests_Get upstream params k :
  requests upstream (Get params k) = params :: requests upstream (k (upstream params)).
Proof. unfold requests. now rewrite run_Get. Qed.

Lemma run_try_get upstream params on_response data :
  upstream params = Response data ->
  run upstream (Server.try_get params on_response) =
  (params :: fst (run upstream (on_response data)),
   snd (run upstream (on_response data))).
Proof. intros H. unfold Server.try_get. rewrite run_Get, H. reflexivity. Qed.

Lemma wellFormed_accepted s :
  wellFormed s ->
  negb (truthy s) || negb (RegExp.test_anchored RegExp.NCT_ID s) = false.
Proof.
  intros H. rewrite (proj2 (test_wellFormed s) H).
  destruct H as (digits & -> & _). reflexivity.
Qed.

Lemma required_nctId_wellFormed args nctId k :
  Args.nctId args = Some nctId -> wellFormed nctId ->
  Server.required_nctId args k = k nctId.
Proof.
  intros Hid Hwf. unfold Server.required_nctId.
  rewrite Hid, (wellFormed_accepted _ Hwf). reflexivity.
Qed.

Lemma required_nctId_rejected args k :
  ~ (exists s, Args.nctId args = Some s /\ wellFormed s) ->
  Server.required_nctId args k =
  Throw (McpError InvalidParams "Valid NCT ID is required (format: NCT########)").
Proof.
  intros Hno. unfold Server.required_nctId, Server.invalidParams.
  destruct (Args.nctId args) as [s|]; [|reflexivity].
  destruct (RegExp.test_anchored RegExp.NCT_ID s) eqn:Htest.
  - exfalso. apply Hno. exists s. split; [reflexivity|]. now apply test_wellFormed.
  - now rewrite orb_true_r.
Qed.

(** C8. The identifier validator accepts a string iff it is the prefix
    NCT followed by exactly eight digits (so 11 characters in all); and the
    two tools that take an identifier throw the invalid-parameters client
    error, without sending any request, whenever the identifier is missing
    or not of that format. *)
Theorem nctId_validation (args : Args.t) :
  (forall s, RegExp.test_anchored RegExp.NCT_ID s = true <-> wellFormed s) /\
  (forall s, wellFormed s -> String.length s = 11%nat) /\
  (~ (exists s, Args.nctId args = Some s /\ wellFormed s) ->
   forall upstream,
     run upstream (Server.handleGetStudyDetails args) =
       ([], inr (McpError InvalidParams "Valid NCT ID is required (format: NCT########)")) /\
     run upstream (Server.handleGetSimilarStudies args) =
       ([], inr (McpError InvalidParams "Valid NCT ID is required (format: NCT########)"))).
Proof.
  split; [exact test_wellFormed|]. split; [exact wellFormed_length|].
  intros Hno upstream.
  unfold Server.handleGetStudyDetails, Server.handleGetSimilarStudies.
  rewrite !(required_nctId_rejected _ _ Hno). split; reflexivity.
Qed.

Lemma nctId_validation_witness :
  run (Sample.always {| studies := None; totalCount := None |})
      (Server.handleGetSimilarStudies
         (Sample.args None (Some "NCT1234567") None None None None)) =
  ([], inr (McpError InvalidParams "Valid NCT ID is required (format: NCT########)")).
Proof.
  apply (nctId_validation (Sample.args None (Some "NCT1234567") None None None None)).
  intros (s & Hs & Hwf). injection Hs as <-.
  apply wellFormed_length in Hwf. discriminate Hwf.
Defined.

(** ** Similar studies *)

(** C6. For a well-formed identifier whose reference lookup answers with no
    study (a missing or an empty [studies] array), the similar-studies tool
    sends that one request and returns the result flagged [isError] with
    the text "Reference study not found: <id>": it neither throws nor
    reports an upstream failure. *)
Theorem similar_reference_not_found (args : Args.t) (nctId : string)
    (upstream : Params -> Reply) (data : StudySearchResponse) :
  Args.nctId args = Some nctId ->
  wellFormed nctId ->
  upstream (reference_params nctId) = Response data ->
  studies data = None \/ studies data = Some [] ->
  run upstream (Server.handleGetSimilarStudies args) =
  ([reference_params nctId],
   inl {| content := Text ("Reference study not found: " +:+ nctId); isError := true |}).
Proof.
  intros Hid Hwf Hup Hnone. unfold Server.handleGetSimilarStudies.
  rewrite (required_nctId_wellFormed _ _ _ Hid Hwf).
  unfold reference_params in *. rewrite (run_try_get _ _ _ _ Hup).
  destruct Hnone as [-> | ->]; reflexivity.
Qed.

Lemma similar_reference_not_found_witness :
  run (Sample.always {| studies := Some []; totalCount := Some 0 |})
      (Server.handleGetSimilarStudies
         (Sample.args None (Some "NCT00000419") None None None None)) =
  ([reference_params "NCT00000419"],
   inl {| content := Text "Reference study not found: NCT00000419"; isError := true |}).
Proof.
  apply (similar_reference_not_found
           (Sample.args None (Some "NCT00000419") None None None None)
           "NCT00000419"
           (Sample.always {| studies := Some []; totalCount := Some 0 |})
           {| studies := Some []; totalCount := Some 0 |}).
  - reflexivity.
  - apply test_wellFormed. reflexivity.
  - reflexivity.
  - right. reflexivity.
Defined.

Lemma forwarded_pageSize_or (pageSize : option Z) :
  pageSize ||| 10 = forwarded_pageSize pageSize.
Proof. destruct pageSize as [[| |]|]; reflexivity. Qed.

Lemma base_params_eq args :
  Server.base_params args =
  {[ "format" := PStr "json";
     "pageSize" := PNum (forwarded_pageSize (Args.pageSize args)) ]}.
Proof. unfold Server.base_params. now rewrite forwarded_pageSize_or. Qed.

Lemma set_if_not_given {A} `{Truthy A} key (inj : A -> ParamValue) o (params : Params) :
  given o = false -> set_if key inj o params = params.
Proof. unfold given, set_if. destruct o as [a|]; [intros ->|]; reflexivity. Qed.

Lemma set_if_lookup_ne {A} `{Truthy A} key (inj : A -> ParamValue) o (params : Params) k :
  key <> k -> set_if key inj o params !! k = params !! k.
Proof.
  intros Hne. unfold set_if. destruct o as [a|]; [|reflexivity].
  destruct (truthy a); [|reflexivity]. now rewrite lookup_insert_ne.
Qed.

Lemma no_empty_value_insert key v (params : Params) :
  v <> PStr "" -> no_empty_value params -> no_empty_value (<[key := v]> params).
Proof.
  intros Hv Hp k. destruct (decide (key = k)) as [->|Hne].
  - rewrite lookup_insert_eq. congruence.
  - rewrite lookup_insert_ne by assumption. apply Hp.
Qed.

Lemma no_empty_value_set_if key o (params : Params) :
  no_empty_value params -> no_empty_value (set_if key PStr o params).
Proof.
  intros Hp. unfold set_if. destruct o as [[|c s]|]; cbn; try assumption.
  apply no_empty_value_insert; [discriminate|assumption].
Qed.

Lemma no_empty_value_base args : no_empty_value (Server.base_params args).
Proof.
  unfold Server.base_params.
  apply no_empty_value_insert; [discriminate|].
  intros k. destruct (decide ("pageSize" = k)) as [<-|Hne].
  - rewrite lookup_singleton_eq. discriminate.
  - rewrite lookup_singleton_ne by assumption. discriminate.
Qed.

(** Whatever the reference record, the second query has no empty value. *)
Lemma similar_params_no_empty_value args referenceStudy :
  no_empty_value (Server.similar_params args referenceStudy).
Proof.
  unfold Server.similar_params.
  repeat case_match; try apply no_empty_value_set_if; apply no_empty_value_base.
Qed.

Lemma similar_params_not_given args referenceStudy :
  given (selected_field args referenceStudy) = false ->
  Server.similar_params args referenceStudy = Server.base_params args.
Proof.
  unfold selected_field, Server.similar_params.
  repeat case_match; intros Hsel; try reflexivity; now apply set_if_not_given.
Qed.

(** C7. When the field of the reference record that [similarityType]
    selects (first condition, lead-sponsor name, first phase) is absent or
    empty, the tool still sends its second request, and that request holds
    only [format] and [pageSize]: the parameter is left out, and no value
    of the query is an empty string. *)
Theorem similar_absent_field_omitted (args : Args.t) (nctId : string)
    (upstream : Params -> Reply) (referenceStudy : Study.t)
    (others : list Study.t) (total : option Z) :
  Args.nctId args = Some nctId ->
  wellFormed nctId ->
  upstream (reference_params nctId) =
    Response {| studies := Some (referenceStudy :: others); totalCount := total |} ->
  given (selected_field args referenceStudy) = false ->
  let secondary : Params :=
    {[ "format" := PStr "json";
       "pageSize" := PNum (forwarded_pageSize (Args.pageSize args)) ]} in
  Server.similar_params args referenceStudy = secondary /\
  no_empty_value secondary /\
  requests upstream (Server.handleGetSimilarStudies args) =
    [reference_params nctId; secondary].
Proof.
  intros Hid Hwf Hup Hsel secondary. subst secondary.
  rewrite <- base_params_eq.
  pose proof (similar_params_not_given _ _ Hsel) as Hparams.
  split; [assumption|]. split; [apply no_empty_value_base|].
  unfold requests, Server.handleGetSimilarStudies.
  rewrite (required_nctId_wellFormed _ _ _ Hid Hwf).
  unfold reference_params in *. rewrite (run_try_get _ _ _ _ Hup).
  cbn [studies fst]. rewrite Hparams. unfold Server.try_get. rewrite run_Get.
  cbn [fst]. f_equal. f_equal.
  destruct (upstream (Server.base_params args)); reflexivity.
Qed.

Lemma similar_absent_field_omitted_witness :
  requests (Sample.upstream "NCT00000419"
              {| studies := Some [Sample.bare "NCT00000419"]; totalCount := Some 1 |}
              {| studies := Some []; totalCount := Some 0 |})
           (Server.handleGetSimilarStudies
              (Sample.args None (Some "NCT00000419") (Some "SPONSOR") None None None)) =
  [reference_params "NCT00000419";
   {[ "format" := PStr "json"; "pageSize" := PNum 10 ]}].
Proof.
  apply (similar_absent_field_omitted
           (Sample.args None (Some "NCT00000419") (Some "SPONSOR") None None None)
           "NCT00000419"
           (Sample.upstream "NCT00000419"
              {| studies := Some [Sample.bare "NCT00000419"]; totalCount := Some 1 |}
              {| studies := Some []; totalCount := Some 0 |})
           (Sample.bare "NCT00000419") [] (Some 1)).
  - reflexivity.
  - apply test_wellFormed. reflexivity.
  - reflexivity.
  - reflexivity.
Defined.

Lemma similar_params_intervention args referenceStudy :
  Args.similarityType args = Some "INTERVENTION" ->
  Server.similar_params args referenceStudy = Server.base_params args.
Proof. intros H. unfold Server.similar_params. rewrite H. reflexivity. Qed.



(** ** International studies *)

Section SetFacts.

Lemma has_elem_of s x : JsSet.has s x = true <-> x ∈ s.
Proof.
  unfold JsSet.has. rewrite existsb_exists, list_elem_of_In. split.
  - intros (y & Hy & Heq). apply String.eqb_eq in Heq. now subst.
  - intros Hx. exists x. split; [assumption|apply String.eqb_refl].
Qed.

Lemma add_NoDup s x : NoDup s -> NoDup (JsSet.add s x).
Proof.
  intros Hs. unfold JsSet.add. destruct (JsSet.has s x) eqn:Hhas; [assumption|].
  apply NoDup_app. split; [assumption|]. split; [|apply NoDup_singleton].
  intros y Hy Hin. apply list_elem_of_singleton in Hin. subst y.
  apply has_elem_of in Hy. congruence.
Qed.

Lemma add_elem_of s x y : y ∈ JsSet.add s x <-> y ∈ s \/ y = x.
Proof.
  unfold JsSet.add. destruct (JsSet.has s x) eqn:Hhas.
  - apply has_elem_of in Hhas. split; [now left|]. intros [?| ->]; assumption.
  - rewrite elem_of_app, list_elem_of_singleton. reflexivity.
Qed.

Lemma fold_add_spec l : forall acc,
  NoDup acc ->
  NoDup (fold_left JsSet.add l acc) /\
  forall y, y ∈ fold_left JsSet.add l acc <-> y ∈ acc \/ y ∈ l.
Proof.
  induction l as [|x l IH]; intros acc Hacc; cbn [fold_left].
  - split; [assumption|]. intros y. rewrite elem_of_nil. intuition.
  - destruct (IH (JsSet.add acc x) (add_NoDup _ _ Hacc)) as [Hnd Hin].
    split; [assumption|]. intros y. rewrite Hin, add_elem_of, elem_of_cons. intuition.
Qed.

(** [new Set(l)] holds each member of [l] exactly once. *)
Lemma of_list_spec l :
  NoDup (JsSet.of_list l) /\ forall y, y ∈ JsSet.of_list l <-> y ∈ l.
Proof.
  destruct (fold_add_spec l [] (NoDup_nil_2)) as [Hnd Hin].
  split; [assumption|]. intros y. rewrite (Hin y), elem_of_nil. intuition.
Qed.

End SetFacts.

Lemma and_then_true {A} `{Truthy A} (o : option A) (f : A -> bool) :
  and_then o f = true <-> exists a, o = Some a /\ truthy a = true /\ f a = true.
Proof.
  unfold and_then. destruct o as [a|].
  - rewrite andb_true_iff. split.
    + intros [? ?]. now exists a.
    + intros (b & [= <-] & ? & ?). now split.
  - split; [discriminate|]. intros (? & [=] & _).
Qed.

(** The filter callback, condition by condition. *)
Lemma international_true args study :
  Derived.international args study = true <->
  2 <= JsSet.size (Derived.countries study) /\
  (forall m, Args.minCountries args = Some m -> m <= JsSet.size (Derived.countries study)) /\
  (forall c, Args.excludeCountry args = Some c -> c <> "" ->
             c ∉ Derived.countries study).
Proof.
  unfold Derived.international.
  set (cs := Derived.countries study).
  destruct (and_then (Args.minCountries args) _) eqn:Hmin.
  { apply and_then_true in Hmin as (m & Hm & _ & Hlt). apply Z.ltb_lt in Hlt.
    split; [discriminate|]. intros (_ & Hle & _). specialize (Hle m Hm). lia. }
  destruct (and_then (Args.excludeCountry args) _) eqn:Hex.
  { apply and_then_true in Hex as (c & Hc & Hne & Hhas). apply has_elem_of in Hhas.
    split; [discriminate|]. intros (_ & _ & Hout). exfalso.
    apply (Hout c Hc); [|assumption]. intros ->. discriminate Hne. }
  rewrite Z.leb_le. split.
  - intros H2. split; [assumption|]. split.
    + intros m Hm. destruct (Z.ltb_spec (JsSet.size cs) m) as [Hlt|]; [|assumption].
      destruct (Z.eq_dec m 0) as [->|Hm0]; [unfold JsSet.size; lia|].
      exfalso. assert (and_then (Args.minCountries args)
                         (fun m => (JsSet.size cs <? m)%Z) = true) as Habs.
      { apply and_then_true. exists m. split; [assumption|]. split.
        - unfold truthy, truthy_number. now apply negb_true_iff, Z.eqb_neq.
        - now apply Z.ltb_lt. }
      congruence.
    + intros c Hc Hne Hin.
      assert (and_then (Args.excludeCountry args) (JsSet.has cs) = true) as Habs.
      { apply and_then_true. exists c. split; [assumption|]. split.
        - destruct c; [congruence|reflexivity].
        - now apply has_elem_of. }
      congruence.
  - intros (H2 & _). assumption.
Qed.



(** ** Eligibility criteria *)

Section FilterFacts.
Context {A : Type} (keep : A -> bool).

Lemma filter_twice l : List.filter keep (List.filter keep l) = List.filter keep l.
Proof.
  induction l as [|x l IH]; [reflexivity|]. cbn [List.filter].
  destruct (keep x) eqn:Hx; [|assumption].
  cbn [List.filter]. rewrite Hx. now f_equal.
Qed.

Lemma filter_keeps_order l : List.filter keep l `sublist_of` l.
Proof.
  induction l as [|x l IH]; [constructor|]. cbn [List.filter].
  destruct (keep x); now constructor.
Qed.

Lemma filter_none l : (forall x, keep x = false) -> List.filter keep l = [].
Proof.
  intros Hnone. induction l as [|x l IH]; [reflexivity|].
  cbn [List.filter]. now rewrite Hnone.
Qed.

End FilterFacts.

Lemma exclusion_filter_sublist exclusionKeywords (studies : list Study.t) :
  Derived.exclusion_filter exclusionKeywords studies `sublist_of` studies.
Proof.
  unfold Derived.exclusion_filter.
  destruct exclusionKeywords as [keywords|]; [|reflexivity].
  destruct (truthy keywords); [apply filter_keeps_order|reflexivity].
Qed.

(** C5. The exclusion filter is idempotent and keeps the order: filtering
    the filtered list again with the same phrase changes nothing, and the
    filtered list is the original list with some records removed. *)
Theorem exclusion_filter_idempotent_ordered (exclusionKeywords : option string)
    (studies : list Study.t) :
  Derived.exclusion_filter exclusionKeywords
    (Derived.exclusion_filter exclusionKeywords studies) =
  Derived.exclusion_filter exclusionKeywords studies /\
  Derived.exclusion_filter exclusionKeywords studies `sublist_of` studies.
Proof.
  split; [|apply exclusion_filter_sublist].
  unfold Derived.exclusion_filter.
  destruct exclusionKeywords as [keywords|]; [|reflexivity].
  destruct (truthy keywords) eqn:Hgiven; [apply filter_twice|reflexivity].
Qed.

Example exclusion_filter_1 :
  Derived.exclusion_filter (Some "Pregnant HIV")
    [Sample.study "NCT00000001" (Some "Adults; not pregnant") ["France"];
     Sample.study "NCT00000002" (Some "Adults with asthma") ["France"];
     Sample.study "NCT00000003" None ["Spain"]] =
    [Sample.study "NCT00000002" (Some "Adults with asthma") ["France"];
     Sample.study "NCT00000003" None ["Spain"]].
Proof. reflexivity. Qed.

Lemma isSpace_toLowerChar c :
  JsString.isSpace (JsString.toLowerChar c) = JsString.isSpace c.
Proof. destruct c as [[] [] [] [] [] [] [] []]; reflexivity. Qed.

Lemma leading_space_toLowerCase s :
  leading_space (JsString.toLowerCase s) = leading_space s.
Proof. destruct s; [reflexivity|]. apply isSpace_toLowerChar. Qed.

Lemma trailing_space_toLowerCase s :
  trailing_space (JsString.toLowerCase s) = trailing_space s.
Proof.
  induction s as [|c s IH]; [reflexivity|].
  destruct s as [|d s]; [apply isSpace_toLowerChar|]. exact IH.
Qed.

Lemma only_space_leading s :
  s <> "" -> only_space s = true -> leading_space s = true.
Proof.
  destruct s as [|c s]; [congruence|]. cbn. now intros _ [? _]%andb_prop.
Qed.

(** A trailing separator leaves an empty last piece. *)
Lemma split_trailing s : forall cur in_sep,
  (in_sep = true -> cur = "") ->
  trailing_space s = true ->
  "" ∈ JsString.split_ws_from s cur in_sep.
Proof.
  induction s as [|c s IH]; intros cur in_sep Hinv Htrail; [discriminate|].
  cbn [JsString.split_ws_from]. destruct s as [|d s].
  - cbn in Htrail. rewrite Htrail. destruct in_sep.
    + rewrite (Hinv eq_refl). cbn. apply list_elem_of_here.
    + cbn. apply list_elem_of_further, list_elem_of_here.
  - assert (trailing_space (String d s) = true) as Htrail' by exact Htrail.
    destruct (JsString.isSpace c); [destruct in_sep|].
    + apply IH; [assumption|assumption].
    + apply list_elem_of_further, IH; [reflexivity|assumption].
    + apply IH; [discriminate|assumption].
Qed.

Lemma split_empty_token s :
  leading_space s = true \/ trailing_space s = true ->
  "" ∈ JsString.split_ws s.
Proof.
  unfold JsString.split_ws. intros [Hlead|Htrail].
  - destruct s as [|c s]; [discriminate|]. cbn in Hlead.
    cbn [JsString.split_ws_from]. rewrite Hlead. apply list_elem_of_here.
  - apply split_trailing; [discriminate|assumption].
Qed.

Lemma includes_empty s : JsString.includes s "" = true.
Proof. destruct s; reflexivity. Qed.

Lemma not_excluded_empty_token exclusionWords study :
  "" ∈ exclusionWords -> Derived.not_excluded exclusionWords study = false.
Proof.
  intros Hin. unfold Derived.not_excluded. apply negb_false_iff, existsb_exists.
  exists "". split; [now apply list_elem_of_In|apply includes_empty].
Qed.

(** C9. For a non-empty exclusion phrase that is white space only, or
    starts or ends with white space, splitting the lower-cased phrase
    yields an empty token; every criteria text includes the empty string,
    so the filter drops every record. *)
Theorem exclusion_whitespace_drops_all (keywords : string) (studies : list Study.t) :
  keywords <> "" ->
  only_space keywords = true \/ leading_space keywords = true \/
    trailing_space keywords = true ->
  "" ∈ JsString.split_ws (JsString.toLowerCase keywords) /\
  Derived.exclusion_filter (Some keywords) studies = [].
Proof.
  intros Hne Hspace.
  assert ("" ∈ JsString.split_ws (JsString.toLowerCase keywords)) as Htoken.
  { apply split_empty_token.
    rewrite leading_space_toLowerCase, trailing_space_toLowerCase.
    destruct Hspace as [Honly|[Hlead|Htrail]]; auto using only_space_leading. }
  split; [assumption|].
  unfold Derived.exclusion_filter.
  destruct keywords as [|c s]; [congruence|]. cbn [truthy truthy_string].
  apply filter_none. intros study. now apply not_excluded_empty_token.
Qed.

Lemma exclusion_whitespace_drops_all_witness :
  Derived.exclusion_filter (Some "pregnant ")
    [Sample.study "NCT00000002" (Some "Adults with asthma") ["France"];
     Sample.bare "NCT00000003"] = [].
Proof.
  apply (exclusion_whitespace_drops_all "pregnant "
           [Sample.study "NCT00000002" (Some "Adults with asthma") ["France"];
            Sample.bare "NCT00000003"]).
  - discriminate.
  - right. right. reflexivity.
Defined.

Lemma totalCount_or (n : Z) : Some n ||| 0 = n.
Proof. destruct n; reflexivity. Qed.

Lemma exclusion_filter_shrinks exclusionKeywords (studies : list Study.t) :
  (length (Derived.exclusion_filter exclusionKeywords studies) <= length studies)%nat.
Proof.
  apply sublist_length, exclusion_filter_sublist.
Qed.

(** C4. When the upstream answers the eligibility tool's request with a
    [totalCount], the payload reports exactly that number, whatever the
    exclusion phrase; the phrase only decides which of the fetched records
    are listed and counted in [resultsShown]. *)
Theorem eligibility_totalCount_unchanged (args : Args.t)
    (upstream : Params -> Reply) (data : StudySearchResponse) (n : Z) :
  upstream (Server.searchByEligibilityCriteria_params args) = Response data ->
  totalCount data = Some n ->
  let shown := Derived.exclusion_filter (Args.exclusionKeywords args)
                 (studies data ||| []) in
  exists payload,
    run upstream (Server.handleSearchByEligibilityCriteria args) =
      ([Server.searchByEligibilityCriteria_params args],
       inl {| content := Stringified payload; isError := false |}) /\
    Json.get "totalCount" payload = Some (JNum n) /\
    Json.get "resultsShown" payload = Some (JNum (Z.of_nat (length shown))) /\
    Json.get "studies" payload = Some (JArr (Server.eligibility_result <$> shown)) /\
    (length shown <= length (studies data ||| []))%nat.
Proof.
  intros Hup Htotal shown.
  exists (Server.eligibility_payload args data). split; [|split; [|split; [|split]]].
  - unfold Server.handleSearchByEligibilityCriteria.
    rewrite (run_try_get _ _ _ _ Hup). reflexivity.
  - unfold Server.eligibility_payload, Server.counted.
    rewrite Htotal, totalCount_or. reflexivity.
  - unfold Server.eligibility_payload, Server.counted, Projector.jlen.
    rewrite length_fmap. reflexivity.
  - reflexivity.
  - apply exclusion_filter_shrinks.
Qed.

Lemma eligibility_totalCount_unchanged_witness :
  exists payload,
    run (Sample.always
           {| studies := Some [Sample.study "NCT00000001" (Some "Not pregnant") ["France"];
                               Sample.study "NCT00000002" (Some "Adults") ["Spain"]];
              totalCount := Some 450 |})
        (Server.handleSearchByEligibilityCriteria
           (Sample.args None None None (Some "pregnant") None None)) =
      ([{[ "format" := PStr "json"; "pageSize" := PNum 10 ]}],
       inl {| content := Stringified payload; isError := false |}) /\
    Json.get "totalCount" payload = Some (JNum 450) /\
    Json.get "resultsShown" payload = Some (JNum 1).
Proof.
  destruct (eligibility_totalCount_unchanged
              (Sample.args None None None (Some "pregnant") None None)
              (Sample.always
                 {| studies := Some [Sample.study "NCT00000001" (Some "Not pregnant") ["France"];
                                     Sample.study "NCT00000002" (Some "Adults") ["Spain"]];
                    totalCount := Some 450 |})
              {| studies := Some [Sample.study "NCT00000001" (Some "Not pregnant") ["France"];
                                  Sample.study "NCT00000002" (Some "Adults") ["Spain"]];
                 totalCount := Some 450 |}
              450 eq_refl eq_refl) as (payload & Hrun & Htotal & Hshown & _).
  exists payload. split; [exact Hrun|]. split; [exact Htotal|exact Hshown].
Defined.

(** ** Result projector: defaults *)

Lemma substring_0_length n : forall s,
  (String.length (String.substring 0 n s) <= n)%nat.
Proof.
  induction n as [|n IH]; intros [|c s]; cbn; try lia.
  specialize (IH s). lia.
Qed.

Lemma substring_0_prefix n : forall s,
  String.prefix (String.substring 0 n s) s = true.
Proof.
  induction n as [|n IH]; intros [|c s]; cbn; try reflexivity.
  rewrite IH. destruct (ascii_dec c c); congruence.
Qed.

Lemma substring_0_short n : forall s,
  (String.length s <= n)%nat -> String.substring 0 n s = s.
Proof.
  induction n as [|n IH]; intros [|c s]; cbn; intros Hlen; try reflexivity; try lia.
  f_equal. apply IH. lia.
Qed.

Lemma ellipsis_truthy s : truthy (s +:+ "...") = true.
Proof. destruct s; reflexivity. Qed.

Lemma criteriaPreview_present study text :
  Projector.the_criteria study = Some text ->
  Projector.criteriaPreview study = JsString.substring text 0 200 +:+ "...".
Proof.
  intros H. unfold Projector.criteriaPreview. rewrite H. cbn [fmap option_fmap option_map js_plus].
  unfold js_or. now rewrite ellipsis_truthy.
Qed.

(** The preview of a record without criteria text: the string built from
    [undefined], not the default. *)
Lemma criteriaPreview_absent study :
  Projector.the_criteria study = None ->
  Projector.criteriaPreview study = "undefined...".
Proof. intros H. unfold Projector.criteriaPreview. rewrite H. reflexivity. Qed.

Example criteriaPreview_1 :
  Projector.criteriaPreview (Sample.study "NCT00000001" (Some "Adults only") []) =
  "Adults only...".
Proof. reflexivity. Qed.

Example criteriaPreview_2 :
  Projector.criteriaPreview (Sample.bare "NCT00000001") = "undefined...".
Proof. reflexivity. Qed.




(** ** Page size *)

Example searchStudies_pageSize_500 :
  Server.searchStudies_params (Sample.args (Some 500) None None None None None)
  = {[ "format" := PStr "json"; "pageSize" := PNum 500 ]}.
Proof. reflexivity. Qed.

Example searchStudies_pageSize_0 :
  Server.searchStudies_params (Sample.args (Some 0) None None None None None)
  = {[ "format" := PStr "json"; "pageSize" := PNum 10 ]}.
Proof. reflexivity. Qed.

Example getRecruitingStudies_pageSize_negative :
  Server.getRecruitingStudies_params (Sample.args (Some (-3)) None None None None None)
  = {[ "format" := PStr "json"; "pageSize" := PNum (-3);
       "filter.overallStatus" := PStr "RECRUITING" ]}.
Proof. reflexivity. Qed.

(** C1, as stated, fails: search_studies declares the bounds 1..100 and,
    given [pageSize = 500], sends a request with [pageSize = 500]. *)
Lemma pageSize_not_guarded : ~ pageSize_guarded.
Proof.
  intros H.
  specialize (H "2026-01-01" (fun _ => JNull) Server.search_studies 100 500
                (Sample.args (Some 500) None None None None None)
                eq_refl eq_refl).
  cbn in H. destruct H as (m & Hm & Hrange); [lia|].
  change (Server.searchStudies_params
            (Sample.args (Some 500) None None None None None) !! "pageSize"
          = Some (PNum m)) in Hm.
  rewrite searchStudies_pageSize_500 in Hm.
  vm_compute in Hm. injection Hm as <-. lia.
Qed.

Lemma base_params_pageSize args :
  Server.base_params args !! "pageSize" =
  Some (PNum (forwarded_pageSize (Args.pageSize args))).
Proof.
  rewrite base_params_eq, lookup_insert_ne by discriminate.
  apply lookup_singleton_eq.
Qed.

Lemma requests_one upstream params on_response :
  (forall data, exists result, on_response data = Return result) ->
  requests upstream (Server.try_get params on_response) = [params].
Proof.
  intros Hret. unfold requests, Server.try_get. rewrite run_Get. cbn [fst].
  destruct (upstream params) as [data| |]; try reflexivity.
  destruct (Hret data) as [result ->]. reflexivity.
Qed.

Lemma requests_required upstream o message k params :
  params ∈ requests upstream (Server.required o message k) ->
  exists x, o = Some x /\ params ∈ requests upstream (k x).
Proof.
  unfold Server.required, Server.invalidParams.
  destruct o as [x|]; [destruct (truthy x)|]; cbn.
  - intros H. now exists x.
  - intros H%elem_of_nil. contradiction.
  - intros H%elem_of_nil. contradiction.
Qed.

Lemma requests_required_nctId upstream args k params :
  params ∈ requests upstream (Server.required_nctId args k) ->
  exists nctId, Args.nctId args = Some nctId /\ params ∈ requests upstream (k nctId).
Proof.
  unfold Server.required_nctId, Server.invalidParams.
  destruct (Args.nctId args) as [x|]; [destruct (_ || _)|]; cbn.
  - intros H%elem_of_nil. contradiction.
  - intros H. now exists x.
  - intros H%elem_of_nil. contradiction.
Qed.

Ltac single_request H :=
  rewrite requests_one in H by (intros; eexists; reflexivity);
  apply list_elem_of_singleton in H; subst.

Ltac pageSize_lookup :=
  cbv beta;
  repeat first
    [ rewrite set_if_lookup_ne by discriminate
    | rewrite lookup_insert_ne by discriminate
    | case_match ];
  apply base_params_pageSize.

(** A handler that throws before sending anything throws the same error
    whatever [pageSize] is: the error never comes from the page size. *)
Lemma throw_independent_of_pageSize futureDate daysFromStart t args pageSize e :
  Server.handler futureDate daysFromStart t args = Throw e ->
  Server.handler futureDate daysFromStart t (Args.with_pageSize pageSize args) = Throw e.
Proof.
  destruct t; cbn [Server.handler];
    unfold Server.handleSearchStudies, Server.handleGetStudyDetails,
      Server.handleSearchByLocation, Server.handleSearchByCondition,
      Server.handleGetTrialStatistics, Server.handleSearchBySponsor,
      Server.handleSearchByIntervention, Server.handleGetRecruitingStudies,
      Server.handleSearchByDateRange, Server.handleGetStudiesWithResults,
      Server.handleSearchRareDiseases, Server.handleGetPediatricStudies,
      Server.handleGetSimilarStudies, Server.handleSearchByPrimaryOutcome,
      Server.handleSearchByEligibilityCriteria, Server.handleGetStudyTimeline,
      Server.handleSearchInternationalStudies,
      Server.required, Server.required_nctId, Server.try_get;
    cbn [Args.with_pageSize Args.condition Args.sponsor Args.intervention
         Args.rareDisease Args.outcome Args.nctId];
    repeat case_match; intros Hthrow; first [discriminate Hthrow | exact Hthrow].
Qed.

(** C1, amended. Composing makes no range check.  Every request a tool
    sends carries [pageSize] = 10 when the argument is missing or 0 and the
    argument's value, whatever it is, otherwise; the only fixed page sizes
    are the identifier lookups (1) of get_study_details and
    get_similar_studies and the page (100) of get_trial_statistics.  An
    error thrown before the first request does not depend on [pageSize].
    The bounds [1, max] are declared in the tools' input schemas only. *)
Theorem pageSize_forwarded (futureDate : string) (daysFromStart : string -> Json)
    (t : Server.Tool) (args : Args.t) :
  (forall (upstream : Params -> Reply) (params : Params),
     params ∈ requests upstream (Server.handler futureDate daysFromStart t args) ->
     let sends (n : Z) := params !! "pageSize" = Some (PNum n) in
     match t with
     | Server.get_study_details => sends 1
     | Server.get_trial_statistics => sends 100
     | Server.get_similar_studies =>
         sends 1 \/ sends (forwarded_pageSize (Args.pageSize args))
     | _ => sends (forwarded_pageSize (Args.pageSize args))
     end) /\
  (forall (pageSize : option Z) (e : Exception),
     Server.handler futureDate daysFromStart t args = Throw e ->
     Server.handler futureDate daysFromStart t (Args.with_pageSize pageSize args)
       = Throw e).
Proof.
  split; [|intros pageSize e; apply throw_independent_of_pageSize].
  intros upstream params H sends. subst sends.
  destruct t; cbn [Server.handler] in H.
  - unfold Server.handleSearchStudies in H. single_request H.
    unfold Server.searchStudies_params. pageSize_lookup.
  - unfold Server.handleGetStudyDetails in H.
    apply requests_required_nctId in H as (nctId & _ & H).
    rewrite requests_Get in H. apply elem_of_cons in H as [-> | H]; [reflexivity|].
    exfalso. revert H. repeat case_match; cbn; apply not_elem_of_nil.
  - unfold Server.handleSearchByLocation in H. single_request H.
    unfold Server.searchByLocation_params. pageSize_lookup.
  - unfold Server.handleSearchByCondition in H.
    apply requests_required in H as (x & _ & H). single_request H.
    unfold Server.searchByCondition_params. pageSize_lookup.
  - unfold Server.handleGetTrialStatistics in H. single_request H.
    unfold Server.getTrialStatistics_params. cbv beta.
    rewrite !set_if_lookup_ne by discriminate. reflexivity.
  - unfold Server.handleSearchBySponsor in H.
    apply requests_required in H as (x & _ & H). single_request H.
    unfold Server.searchBySponsor_params. pageSize_lookup.
  - unfold Server.handleSearchByIntervention in H.
    apply requests_required in H as (x & _ & H). single_request H.
    unfold Server.searchByIntervention_params. pageSize_lookup.
  - unfold Server.handleGetRecruitingStudies in H. single_request H.
    unfold Server.getRecruitingStudies_params. pageSize_lookup.
  - unfold Server.handleSearchByDateRange in H. single_request H.
    unfold Server.searchByDateRange_params. pageSize_lookup.
  - unfold Server.handleGetStudiesWithResults in H. single_request H.
    unfold Server.getStudiesWithResults_params. pageSize_lookup.
  - unfold Server.handleSearchRareDiseases in H.
    apply requests_required in H as (x & _ & H). single_request H.
    unfold Server.searchRareDiseases_params. pageSize_lookup.
  - unfold Server.handleGetPediatricStudies in H. single_request H.
    unfold Server.getPediatricStudies_params, Server.age_bounds. pageSize_lookup.
  - unfold Server.handleGetSimilarStudies in H.
    apply requests_required_nctId in H as (nctId & _ & H).
    unfold Server.try_get at 1 in H. rewrite requests_Get in H.
    apply elem_of_cons in H as [-> | H]; [left; reflexivity|]. right.
    destruct (upstream _) as [referenceData| |] in H;
      [|apply elem_of_nil in H; contradiction..].
    destruct (studies referenceData) as [[|referenceStudy ?]|];
      [apply elem_of_nil in H; contradiction| |apply elem_of_nil in H; contradiction].
    single_request H. unfold Server.similar_params. pageSize_lookup.
  - unfold Server.handleSearchByPrimaryOutcome in H.
    apply requests_required in H as (x & _ & H). single_request H.
    unfold Server.searchByPrimaryOutcome_params. pageSize_lookup.
  - unfold Server.handleSearchByEligibilityCriteria in H. single_request H.
    unfold Server.searchByEligibilityCriteria_params. pageSize_lookup.
  - unfold Server.handleGetStudyTimeline in H. single_request H.
    unfold Server.getStudyTimeline_params. pageSize_lookup.
  - unfold Server.handleSearchInternationalStudies in H. single_request H.
    unfold Server.searchInternationalStudies_params. pageSize_lookup.
Qed.

Lemma pageSize_forwarded_witness :
  Server.searchStudies_params (Sample.args (Some 500) None None None None None)
    !! "pageSize" = Some (PNum 500).
Proof.
  apply (proj1 (pageSize_forwarded "2026-01-01" (fun _ => JNull) Server.search_studies
                  (Sample.args (Some 500) None None None None None))
           (Sample.always {| studies := Some []; totalCount := Some 0 |})).
  vm_compute. apply list_elem_of_here.
Defined.

(** ** Dispatcher *)

Lemma tool_named_name futureDate daysFromStart t :
  Server.tool_named (Server.tool_name t) = Some t /\
  Server.callTool futureDate daysFromStart (Server.tool_name t) =
  fun args => Server.rethrow (Server.handler futureDate daysFromStart t args).
Proof. destruct t; split; reflexivity. Qed.

Lemma callTool_unknown futureDate daysFromStart name args :
  Server.tool_named name = None ->
  Server.callTool futureDate daysFromStart name args =
  Throw (McpError MethodNotFound ("Unknown tool: " +:+ name)).
Proof. intros H. unfold Server.callTool. rewrite H. reflexivity. Qed.

(** The dispatcher lets nothing but an [McpError] escape. *)
Lemma callTool_throws_McpError futureDate daysFromStart name args upstream e :
  outcome upstream (Server.callTool futureDate daysFromStart name args) = inr e ->
  exists code message, e = McpError code message.
Proof.
  unfold Server.callTool, outcome.
  generalize (match Server.tool_named name with
              | Some t => Server.handler futureDate daysFromStart t args
              | None => Throw (McpError MethodNotFound ("Unknown tool: " +:+ name))
              end).
  intros c. induction c as [result|[code message|message]|params k IH];
    cbn [Server.rethrow].
  - discriminate.
  - cbn. intros [= <-]. eauto.
  - cbn. intros [= <-]. eauto.
  - rewrite run_Get. cbn [snd]. apply IH.
Qed.

Example callTool_missing_nctId :
  Server.callTool "2026-01-01" (fun _ => JNull) "get_study_details" Args.none =
  Throw (McpError InvalidParams "Valid NCT ID is required (format: NCT########)").
Proof. reflexivity. Qed.

(** * Further properties of the server *)

(** ** Dispatcher *)

Lemma run_rethrow upstream c :
  run upstream (Server.rethrow c) =
  (fst (run upstream c),
   match snd (run upstream c) with
   | inl result => inl result
   | inr e => inr (wrapped e)
   end).
Proof.
  induction c as [result|[code message|message]|params k IH];
    cbn [Server.rethrow]; try reflexivity.
  rewrite !run_Get. cbn [fst snd]. rewrite IH. reflexivity.
Qed.

(** X1. The dispatcher adds nothing to a registered tool's handler but its
    [catch]: the same requests are sent, a returned result is passed on
    unchanged, a thrown [McpError] is thrown on unchanged, and any other
    error is thrown as an [McpError] with code [InternalError] and the same
    message. *)
Theorem callTool_registered (futureDate : string) (daysFromStart : string -> Json)
    (t : Server.Tool) (args : Args.t) (upstream : Params -> Reply) :
  let call := Server.handler futureDate daysFromStart t args in
  let dispatched :=
    Server.callTool futureDate daysFromStart (Server.tool_name t) args in
  requests upstream dispatched = requests upstream call /\
  outcome upstream dispatched =
    match outcome upstream call with
    | inl result => inl result
    | inr e => inr (wrapped e)
    end.
Proof.
  intros call dispatched. subst call dispatched.
  rewrite (proj2 (tool_named_name futureDate daysFromStart t)).
  unfold requests, outcome. rewrite run_rethrow. split; reflexivity.
Qed.

Lemma tool_named_Some name t : Server.tool_named name = Some t -> Server.tool_name t = name.
Proof.
  unfold Server.tool_named. intros H. apply find_some in H as [_ H].
  now apply String.eqb_eq.
Qed.

(** X2. A name that is none of the 17 registered tool names makes the
    dispatcher throw [McpError(MethodNotFound, "Unknown tool: <name>")]
    without sending any request. *)
Theorem callTool_unregistered (futureDate : string) (daysFromStart : string -> Json)
    (name : string) (args : Args.t) (upstream : Params -> Reply) :
  (forall t, Server.tool_name t <> name) ->
  run upstream (Server.callTool futureDate daysFromStart name args) =
  ([], inr (McpError MethodNotFound ("Unknown tool: " +:+ name))).
Proof.
  intros Hnone. unfold Server.callTool.
  destruct (Server.tool_named name) as [t|] eqn:Hnamed.
  - apply tool_named_Some in Hnamed. now destruct (Hnone t).
  - reflexivity.
Qed.

Lemma callTool_unregistered_witness :
  run (Sample.always {| studies := None; totalCount := None |})
      (Server.callTool "2026-01-01" (fun _ => JNull) "delete_study" Args.none) =
  ([], inr (McpError MethodNotFound "Unknown tool: delete_study")).
Proof.
  apply (callTool_unregistered "2026-01-01" (fun _ => JNull) "delete_study" Args.none
           (Sample.always {| studies := None; totalCount := None |})).
  intros t. destruct t; discriminate.
Defined.

(** ** Required arguments and the number of requests *)

Lemma required_missing o message k :
  given o = false -> Server.required o message k = Throw (McpError InvalidParams message).
Proof.
  unfold given, Server.required, Server.invalidParams.
  destruct o as [x|]; [intros ->|]; reflexivity.
Qed.

Lemma required_given o message k x :
  o = Some x -> truthy x = true -> Server.required o message k = k x.
Proof. intros -> Hx. unfold Server.required. now rewrite Hx. Qed.

Ltac lookup_inserted :=
  cbv beta;
  repeat first
    [ rewrite set_if_lookup_ne by discriminate
    | rewrite lookup_insert_ne by discriminate ];
  apply lookup_insert_eq.

(** X3. The five tools with a required text argument (condition, sponsor,
    intervention, rare disease, outcome) throw the invalid-parameters error
    with their own message, before any request, when the argument is
    missing or empty; given the argument they send exactly one request,
    which carries the argument under the tool's query key whatever the
    other arguments are. *)
Theorem required_argument_checked (futureDate : string)
    (daysFromStart : string -> Json) (t : Server.Tool)
    (get : Args.t -> option string) (key message : string)
    (args : Args.t) (upstream : Params -> Reply) :
  required_argument t = Some (get, key, message) ->
  let call := Server.handler futureDate daysFromStart t args in
  (given (get args) = false ->
   run upstream call = ([], inr (McpError InvalidParams message))) /\
  (forall value, get args = Some value -> value <> "" ->
   exists params,
     requests upstream call = [params] /\ params !! key = Some (PStr value)).
Proof.
  intros Htable call. subst call.
  assert (forall value : string, value <> "" -> truthy value = true) as Htruthy
    by (intros [|? ?] ?; [congruence|reflexivity]).
  destruct t; try discriminate Htable; injection Htable as <- <- <-;
    cbn [Server.handler];
    unfold Server.handleSearchByCondition, Server.handleSearchBySponsor,
      Server.handleSearchByIntervention, Server.handleSearchRareDiseases,
      Server.handleSearchByPrimaryOutcome;
    (split;
     [ intros Hmissing; now rewrite (required_missing _ _ _ Hmissing)
     | intros value Hvalue Hne;
       rewrite (required_given _ _ _ _ Hvalue (Htruthy _ Hne));
       eexists; split;
       [ apply requests_one; intros; eexists; reflexivity | ] ]).
  - unfold Server.searchByCondition_params. lookup_inserted.
  - unfold Server.searchBySponsor_params. lookup_inserted.
  - unfold Server.searchByIntervention_params. lookup_inserted.
  - unfold Server.searchRareDiseases_params. lookup_inserted.
  - unfold Server.searchByPrimaryOutcome_params. lookup_inserted.
Qed.

Lemma required_argument_checked_witness :
  run (Sample.always {| studies := None; totalCount := None |})
      (Server.handleSearchBySponsor Args.none) =
  ([], inr (McpError InvalidParams "Sponsor parameter is required")).
Proof.
  apply (required_argument_checked "2026-01-01" (fun _ => JNull)
           Server.search_by_sponsor Args.sponsor "query.spons"
           "Sponsor parameter is required" Args.none
           (Sample.always {| studies := None; totalCount := None |}) eq_refl).
  reflexivity.
Defined.

Ltac unfold_handlers :=
  unfold Server.handleSearchStudies, Server.handleGetStudyDetails,
    Server.handleSearchByLocation, Server.handleSearchByCondition,
    Server.handleGetTrialStatistics, Server.handleSearchBySponsor,
    Server.handleSearchByIntervention, Server.handleGetRecruitingStudies,
    Server.handleSearchByDateRange, Server.handleGetStudiesWithResults,
    Server.handleSearchRareDiseases, Server.handleGetPediatricStudies,
    Server.handleGetSimilarStudies, Server.handleSearchByPrimaryOutcome,
    Server.handleSearchByEligibilityCriteria, Server.handleGetStudyTimeline,
    Server.handleSearchInternationalStudies.

Ltac count_requests :=
  unfold Server.required, Server.required_nctId, Server.invalidParams, Server.try_get;
  repeat first
    [ rewrite requests_Get
    | progress cbn [length]
    | progress change (requests ?u (Return ?r)) with (@nil Params)
    | progress change (requests ?u (Throw ?e)) with (@nil Params)
    | case_match ].

(** X4. A tool call sends at most one request upstream, the similar-studies
    tool at most two (the reference lookup, then the search); a tool that
    neither requires an argument nor takes an identifier always sends
    exactly one.  Nothing is retried or paginated. *)
Theorem requests_bounded (futureDate : string) (daysFromStart : string -> Json)
    (t : Server.Tool) (args : Args.t) (upstream : Params -> Reply) :
  let n := length (requests upstream (Server.handler futureDate daysFromStart t args)) in
  (n <= 2)%nat /\
  (t <> Server.get_similar_studies -> (n <= 1)%nat) /\
  (required_argument t = None -> takes_nctId t = false -> n = 1%nat).
Proof.
  intros n. subst n.
  destruct t; cbn [Server.handler required_argument takes_nctId]; unfold_handlers;
    (split; [|split]; try congruence; try discriminate; intros; count_requests; lia).
Qed.

(** ** No empty parameter *)

Lemma requests_required_given upstream o message k params :
  params ∈ requests upstream (Server.required o message k) ->
  exists x, o = Some x /\ x <> "" /\ params ∈ requests upstream (k x).
Proof.
  unfold Server.required, Server.invalidParams.
  destruct o as [[|c x]|]; cbn.
  - intros H%elem_of_nil. contradiction.
  - intros H. exists (String c x). now repeat split.
  - intros H%elem_of_nil. contradiction.
Qed.

Lemma requests_required_nctId_given upstream args k params :
  params ∈ requests upstream (Server.required_nctId args k) ->
  exists nctId, Args.nctId args = Some nctId /\ wellFormed nctId /\
                params ∈ requests upstream (k nctId).
Proof.
  unfold Server.required_nctId, Server.invalidParams.
  destruct (Args.nctId args) as [x|]; [|intros H%elem_of_nil; contradiction].
  destruct (negb (truthy x) || negb (RegExp.test_anchored RegExp.NCT_ID x))
    eqn:Hcheck; [intros H%elem_of_nil; contradiction|].
  apply orb_false_elim in Hcheck as [_ Htest].
  apply negb_false_iff, test_wellFormed in Htest.
  intros H. now exists x.
Qed.

Lemma wellFormed_nonempty s : wellFormed s -> s <> "".
Proof. intros (digits & -> & _). discriminate. Qed.

Lemma PStr_nonempty s : s <> "" -> PStr s <> PStr "".
Proof. congruence. Qed.

Lemma no_empty_value_set_if_number key o (params : Params) :
  no_empty_value params -> no_empty_value (set_if key PNum o params).
Proof.
  intros Hp. unfold set_if. destruct o as [n|]; [|assumption].
  destruct (truthy n); [|assumption].
  apply no_empty_value_insert; [discriminate|assumption].
Qed.

Lemma no_empty_value_singleton key v :
  v <> PStr "" -> no_empty_value ({[ key := v ]} : Params).
Proof.
  intros Hv k. destruct (decide (key = k)) as [<-|Hne].
  - rewrite lookup_singleton_eq. congruence.
  - rewrite lookup_singleton_ne by assumption. discriminate.
Qed.

Ltac no_empty :=
  cbv beta;
  repeat first
    [ apply no_empty_value_base
    | apply no_empty_value_set_if
    | apply no_empty_value_set_if_number
    | apply no_empty_value_singleton;
        first [discriminate | apply PStr_nonempty; assumption]
    | apply no_empty_value_insert;
        [first [discriminate | apply PStr_nonempty; assumption]|]
    | case_match ].

(** X5. No request of any tool carries an empty string as a parameter
    value: an empty or missing argument is left out of the query.  (The
    timeline tool's start-date floor is the clock's date string, taken to
    be non-empty.) *)
Theorem requests_no_empty_value (futureDate : string)
    (daysFromStart : string -> Json) (t : Server.Tool) (args : Args.t)
    (upstream : Params -> Reply) (params : Params) :
  futureDate <> "" ->
  params ∈ requests upstream (Server.handler futureDate daysFromStart t args) ->
  no_empty_value params.
Proof.
  intros Hclock H.
  destruct t; cbn [Server.handler] in H.
  - unfold Server.handleSearchStudies in H. single_request H.
    unfold Server.searchStudies_params. no_empty.
  - unfold Server.handleGetStudyDetails in H.
    apply requests_required_nctId_given in H as (nctId & _ & Hid%wellFormed_nonempty & H).
    rewrite requests_Get in H. apply elem_of_cons in H as [-> | H]; [no_empty|].
    exfalso. revert H. repeat case_match; cbn; apply not_elem_of_nil.
  - unfold Server.handleSearchByLocation in H. single_request H.
    unfold Server.searchByLocation_params. no_empty.
  - unfold Server.handleSearchByCondition in H.
    apply requests_required_given in H as (x & _ & Hx & H). single_request H.
    unfold Server.searchByCondition_params. no_empty.
  - unfold Server.handleGetTrialStatistics in H. single_request H.
    unfold Server.getTrialStatistics_params. no_empty.
  - unfold Server.handleSearchBySponsor in H.
    apply requests_required_given in H as (x & _ & Hx & H). single_request H.
    unfold Server.searchBySponsor_params. no_empty.
  - unfold Server.handleSearchByIntervention in H.
    apply requests_required_given in H as (x & _ & Hx & H). single_request H.
    unfold Server.searchByIntervention_params. no_empty.
  - unfold Server.handleGetRecruitingStudies in H. single_request H.
    unfold Server.getRecruitingStudies_params. no_empty.
  - unfold Server.handleSearchByDateRange in H. single_request H.
    unfold Server.searchByDateRange_params. no_empty.
  - unfold Server.handleGetStudiesWithResults in H. single_request H.
    unfold Server.getStudiesWithResults_params. no_empty.
  - unfold Server.handleSearchRareDiseases in H.
    apply requests_required_given in H as (x & _ & Hx & H). single_request H.
    unfold Server.searchRareDiseases_params. cbv beta.
    apply no_empty_value_insert; [destruct x; discriminate|]. no_empty.
  - unfold Server.handleGetPediatricStudies in H. single_request H.
    unfold Server.getPediatricStudies_params, Server.age_bounds. no_empty.
  - unfold Server.handleGetSimilarStudies in H.
    apply requests_required_nctId_given in H as (nctId & _ & Hid%wellFormed_nonempty & H).
    unfold Server.try_get at 1 in H. rewrite requests_Get in H.
    apply elem_of_cons in H as [-> | H]; [no_empty|].
    destruct (upstream _) as [referenceData| |] in H;
      [|apply elem_of_nil in H; contradiction..].
    destruct (studies referenceData) as [[|referenceStudy ?]|];
      [apply elem_of_nil in H; contradiction| |apply elem_of_nil in H; contradiction].
    single_request H. apply similar_params_no_empty_value.
  - unfold Server.handleSearchByPrimaryOutcome in H.
    apply requests_required_given in H as (x & _ & Hx & H). single_request H.
    unfold Server.searchByPrimaryOutcome_params. no_empty.
  - unfold Server.handleSearchByEligibilityCriteria in H. single_request H.
    unfold Server.searchByEligibilityCriteria_params. no_empty.
  - unfold Server.handleGetStudyTimeline in H. single_request H.
    unfold Server.getStudyTimeline_params. no_empty.
  - unfold Server.handleSearchInternationalStudies in H. single_request H.
    unfold Server.searchInternationalStudies_params. no_empty.
Qed.

Lemma requests_no_empty_value_witness :
  no_empty_value
    (Server.getStudyTimeline_params "2026-02-01"
       (Sample.args None None None None None None)).
Proof.
  apply (requests_no_empty_value "2026-02-01" (fun _ => JNull)
           Server.get_study_timeline (Sample.args None None None None None None)
           (Sample.always {| studies := Some []; totalCount := Some 0 |})).
  - discriminate.
  - vm_compute. apply list_elem_of_here.
Defined.

(** ** Filters a tool always injects *)

(** X6. Arguments cannot override the filters a tool injects: every request
    of the recruiting tool has status RECRUITING, every request of the
    results tool has status COMPLETED and the has-results flag, every
    request of the pediatric tool has the CHILD age group, and every
    request of the rare-disease tool searches the disease as condition and
    "<disease> OR orphan OR rare" as general term. *)
Theorem forced_filters (futureDate : string) (daysFromStart : string -> Json)
    (t : Server.Tool) (args : Args.t) (upstream : Params -> Reply) (params : Params) :
  params ∈ requests upstream (Server.handler futureDate daysFromStart t args) ->
  match t with
  | Server.get_recruiting_studies =>
      params !! "filter.overallStatus" = Some (PStr "RECRUITING")
  | Server.get_studies_with_results =>
      params !! "filter.overallStatus" = Some (PStr "COMPLETED") /\
      params !! "filter.hasResults" = Some (PBool true)
  | Server.get_pediatric_studies =>
      params !! "filter.stdAge" = Some (PStr "CHILD")
  | Server.search_rare_diseases =>
      exists disease,
        Args.rareDisease args = Some disease /\
        params !! "query.cond" = Some (PStr disease) /\
        params !! "query.term" = Some (PStr (disease +:+ " OR orphan OR rare"))
  | _ => True
  end.
Proof.
  intros H. destruct t; try exact I; cbn [Server.handler] in H.
  - unfold Server.handleGetRecruitingStudies in H. single_request H.
    unfold Server.getRecruitingStudies_params. lookup_inserted.
  - unfold Server.handleGetStudiesWithResults in H. single_request H.
    unfold Server.getStudiesWithResults_params. split; lookup_inserted.
  - unfold Server.handleSearchRareDiseases in H.
    apply requests_required_given in H as (disease & Hd & _ & H). single_request H.
    exists disease. split; [assumption|].
    unfold Server.searchRareDiseases_params. split; lookup_inserted.
  - unfold Server.handleGetPediatricStudies in H. single_request H.
    unfold Server.getPediatricStudies_params, Server.age_bounds. cbv beta.
    rewrite set_if_lookup_ne by discriminate.
    repeat case_match;
      repeat first [ rewrite set_if_lookup_ne by discriminate
                   | rewrite lookup_insert_ne by discriminate ];
      apply lookup_insert_eq.
Qed.

Lemma forced_filters_witness :
  Server.getStudiesWithResults_params
    (Sample.args (Some 5) None None None None None) !! "filter.hasResults"
  = Some (PBool true).
Proof.
  apply (forced_filters "2026-01-01" (fun _ => JNull) Server.get_studies_with_results
           (Sample.args (Some 5) None None None None None)
           (Sample.always {| studies := Some []; totalCount := Some 0 |})).
  vm_compute. apply list_elem_of_here.
Defined.

Lemma base_params_lookup_other args key :
  key <> "format" -> key <> "pageSize" -> Server.base_params args !! key = None.
Proof.
  intros Hf Hp. unfold Server.base_params.
  rewrite lookup_insert_ne by congruence. apply lookup_singleton_ne. congruence.
Qed.


(** ** Location search *)

Section Joining.
#[local] Arguments String.append !_ _ / : simpl nomatch.

Lemma append_assoc (a b c : string) : (a +:+ b) +:+ c = a +:+ (b +:+ c).
Proof. induction a as [|x a IH]; simpl; [reflexivity|now f_equal]. Qed.

Lemma locationQuery_concat args :
  Server.locationQuery args = String.concat ", " (location_segments args).
Proof.
  unfold Server.locationQuery, Server.add_segment, location_segments.
  destruct (Args.country args) as [[|? ?]|], (Args.state args) as [[|? ?]|],
    (Args.city args) as [[|? ?]|], (Args.facilityName args) as [[|? ?]|];
    simpl; rewrite ?append_assoc; simpl; rewrite ?append_assoc; simpl; reflexivity.
Qed.

End Joining.


Example location_query_1 :
  Server.searchByLocation_params
    {| Args.query := None; Args.condition := None; Args.intervention := None;
       Args.location := None; Args.phase := None; Args.status := None;
       Args.sex := None; Args.age := None; Args.pageSize := None;
       Args.nctId := None; Args.country := Some "France"; Args.state := Some "";
       Args.city := Some "Lyon"; Args.facilityName := None; Args.distance := Some 25;
       Args.recruitmentStatus := None; Args.groupBy := None; Args.filters := None;
       Args.sponsor := None; Args.sponsorType := None; Args.interventionType := None;
       Args.ageGroup := None; Args.startDateFrom := None; Args.startDateTo := None;
       Args.completionDateFrom := None; Args.completionDateTo := None;
       Args.completedAfter := None; Args.rareDisease := None; Args.ageRange := None;
       Args.similarityType := None; Args.outcome := None;
       Args.minAge := None; Args.maxAge := None; Args.healthyVolunteers := None;
       Args.exclusionKeywords := None; Args.inclusionKeywords := None;
       Args.timelineType := None; Args.excludeCountry := None;
       Args.includeCountry := None; Args.minCountries := None |}
  = {[ "format" := PStr "json"; "pageSize" := PNum 10;
       "query.locn" := PStr "France, Lyon"; "filter.distance" := PNum 25 ]}.
Proof. reflexivity. Qed.

(** ** Statistics *)

Section Grouping.
Variable field : string.

Let step (groups : list (string * Z)) (study : Study.t) : list (string * Z) :=
  Derived.bump (Derived.group_key field study) groups.

Lemma group_count_bump key k groups :
  group_count key (Derived.bump k groups) =
  if String.eqb k key then Some (default 0 (group_count key groups) + 1)
  else group_count key groups.
Proof.
  induction groups as [|[k' n] groups IH]; cbn [Derived.bump group_count].
  - destruct (String.eqb_spec k key); reflexivity.
  - destruct (String.eqb_spec k' k) as [->|Hne]; cbn [group_count].
    + destruct (String.eqb_spec k key); reflexivity.
    + rewrite IH. destruct (String.eqb_spec k' key) as [->|]; [|reflexivity].
      destruct (String.eqb_spec k key); [congruence|reflexivity].
Qed.

Lemma groups_total_bump k groups :
  groups_total (Derived.bump k groups) = groups_total groups + 1.
Proof.
  induction groups as [|[k' n] groups IH]; cbn [Derived.bump].
  - reflexivity.
  - destruct (String.eqb k' k); unfold groups_total in *; cbn [fold_right snd] in *; lia.
Qed.

Lemma occurrences_cons key study studies :
  occurrences field key (study :: studies) =
  (if String.eqb (Derived.group_key field study) key then 1 else 0)
  + occurrences field key studies.
Proof.
  unfold occurrences. cbn [List.filter].
  destruct (String.eqb _ key); cbn [length]; lia.
Qed.

Lemma occurrences_nonneg key studies : 0 <= occurrences field key studies.
Proof. unfold occurrences. lia. Qed.

Lemma group_count_fold key studies : forall groups,
  group_count key (fold_left step studies groups) =
  match group_count key groups with
  | Some n => Some (n + occurrences field key studies)
  | None =>
      if decide (occurrences field key studies = 0) then None
      else Some (occurrences field key studies)
  end.
Proof.
  induction studies as [|study studies IH]; intros groups; cbn [fold_left].
  - change (occurrences field key []) with 0.
    destruct (group_count key groups); [f_equal; lia|reflexivity].
  - rewrite IH. unfold step. rewrite group_count_bump, occurrences_cons.
    pose proof (occurrences_nonneg key studies).
    destruct (String.eqb _ key), (group_count key groups) as [n|];
      unfold default; cbn [from_option id];
      repeat case_decide; try lia; f_equal; lia.
Qed.

Lemma groups_total_fold studies : forall groups,
  groups_total (fold_left step studies groups) =
  groups_total groups + Z.of_nat (length studies).
Proof.
  induction studies as [|study studies IH]; intros groups; cbn [fold_left length].
  - lia.
  - rewrite IH. unfold step. rewrite groups_total_bump. lia.
Qed.

Lemma lookup_groups key (groups : list (string * Z)) :
  Json.lookup key ((fun g => (fst g, JNum (snd g))) <$> groups) =
  JNum <$> group_count key groups.
Proof.
  induction groups as [|[k n] groups IH]; [reflexivity|].
  cbn [fmap list_fmap Json.lookup group_count fst snd].
  destruct (String.eqb k key); [reflexivity|exact IH].
Qed.

Lemma total_groups (groups : list (string * Z)) :
  object_total (JObj ((fun g => (fst g, JNum (snd g))) <$> groups)) =
  groups_total groups.
Proof.
  unfold object_total, groups_total.
  induction groups as [|[k n] groups IH]; [reflexivity|].
  cbn [fmap list_fmap fold_right fst snd]. now rewrite <- IH.
Qed.

(** X9. [groupByField] counts occurrences: the object it returns maps each
    grouping key borne by at least one study to the number of studies that
    bear it, has no property for any other key, and its counts add up to
    the number of studies. *)
Theorem groupByField_counts (studies : list Study.t) :
  (forall key,
     Json.get key (Derived.groupByField studies field) =
     if decide (occurrences field key studies = 0) then None
     else Some (JNum (occurrences field key studies))) /\
  object_total (Derived.groupByField studies field) = Z.of_nat (length studies).
Proof.
  unfold Derived.groupByField. split.
  - intros key. cbn [Json.get]. rewrite lookup_groups.
    change (fold_left _ studies []) with (fold_left step studies []).
    rewrite group_count_fold. cbn [group_count]. now case_decide.
  - rewrite total_groups.
    change (fold_left _ studies []) with (fold_left step studies []).
    now rewrite groups_total_fold.
Qed.

End Grouping.

Example groupByField_1 :
  Derived.groupByField
    [Sample.study "NCT00000001" None []; Sample.bare "NCT00000002";
     Sample.study "NCT00000003" None []] "status"
  = JObj [("RECRUITING", JNum 2); ("COMPLETED", JNum 1)].
Proof. reflexivity. Qed.

(** ** Upstream failures *)

Lemma run_try_get_failure upstream params on_response error :
  upstream params = AxiosFailure error ->
  run upstream (Server.try_get params on_response) =
  ([params], inl (Server.apiError error)).
Proof. intros H. unfold Server.try_get. rewrite run_Get, H. reflexivity. Qed.

Lemma run_try_get_other upstream params on_response message :
  upstream params = OtherFailure message ->
  run upstream (Server.try_get params on_response) = ([params], inr (Error message)).
Proof. intros H. unfold Server.try_get. rewrite run_Get, H. reflexivity. Qed.

Ltac split_required :=
  repeat match goal with
  | |- context [Server.required ?o _ _] =>
      unfold Server.required, Server.invalidParams; destruct o as [[|? ?]|]
  | |- context [Server.required_nctId ?args _] =>
      unfold Server.required_nctId, Server.invalidParams;
      destruct (Args.nctId args) as [?nctId|];
      [destruct (negb _ || negb _)|]
  end;
  cbn [truthy truthy_string negb].

(** X10. When the upstream fails (axios error: network, timeout or non-2xx),
    a tool that got past its argument checks has sent exactly one request
    and returns an error-flagged result with the text
    "Clinical Trials API error: " followed by the upstream's message if
    there is one, else by the error's own message; the details tool
    reports status 404 as "Study not found: <id>" instead.  Nothing is
    retried and no partial result is returned. *)
Theorem upstream_failure_reported (futureDate : string)
    (daysFromStart : string -> Json) (t : Server.Tool) (args : Args.t)
    (upstream : Params -> Reply) (error : AxiosError) :
  (forall params, upstream params = AxiosFailure error) ->
  match run upstream (Server.handler futureDate daysFromStart t args) with
  | ([], inr (McpError InvalidParams _)) => True
  | ([_], inl result) =>
      isError result = true /\
      (let reported :=
         content result =
         Text ("Clinical Trials API error: " +:+
               (response_data_message error ||| message error)) in
       match t with
       | Server.get_study_details =>
           if bool_decide (response_status error = Some 404)
           then exists nctId, Args.nctId args = Some nctId /\
                              content result = Text ("Study not found: " +:+ nctId)
           else reported
       | _ => reported
       end)
  | _ => False
  end.
Proof.
  intros Hup.
  destruct t; cbn [Server.handler]; unfold_handlers; split_required;
    try exact I;
    try (rewrite (run_try_get_failure _ _ _ _ (Hup _));
         split; reflexivity).
  rewrite run_Get, Hup. case_bool_decide as Hstatus.
  - cbn. split; [reflexivity|]. eexists. split; reflexivity.
  - cbn. split; reflexivity.
Qed.

Lemma upstream_failure_reported_witness :
  match run (fun _ => AxiosFailure {| response_status := Some 503;
                                      response_data_message := None;
                                      message := "Request failed with status code 503" |})
            (Server.handleGetStudyDetails
               (Sample.args None (Some "NCT00000419") None None None None)) with
  | ([_], inl result) =>
      isError result = true /\
      content result =
      Text "Clinical Trials API error: Request failed with status code 503"
  | _ => False
  end.
Proof.
  apply (upstream_failure_reported "2026-01-01" (fun _ => JNull)
           Server.get_study_details
           (Sample.args None (Some "NCT00000419") None None None None)
           (fun _ => AxiosFailure {| response_status := Some 503;
                                     response_data_message := None;
                                     message := "Request failed with status code 503" |})
           {| response_status := Some 503; response_data_message := None;
              message := "Request failed with status code 503" |}).
  intros params. reflexivity.
Defined.

(** X11. When the upstream request is rejected with an error that is not an
    axios error, a tool that got past its argument checks has sent one
    request and throws that error on; the dispatcher then throws an
    [McpError] with code [InternalError] and the same message. *)
Theorem other_failure_thrown (futureDate : string)
    (daysFromStart : string -> Json) (t : Server.Tool) (args : Args.t)
    (upstream : Params -> Reply) (text : string) :
  (forall params, upstream params = OtherFailure text) ->
  match run upstream (Server.handler futureDate daysFromStart t args) with
  | ([], inr (McpError InvalidParams _)) => True
  | ([_], inr e) =>
      e = Error text /\
      outcome upstream
        (Server.callTool futureDate daysFromStart (Server.tool_name t) args)
      = inr (McpError InternalError text)
  | _ => False
  end.
Proof.
  intros Hup.
  pose proof (run_rethrow upstream
                (Server.handler futureDate daysFromStart t args)) as Hwrap.
  unfold outcome. rewrite (proj2 (tool_named_name futureDate daysFromStart t)), Hwrap.
  clear Hwrap.
  destruct t; cbn [Server.handler]; unfold_handlers; split_required;
    try exact I;
    try (rewrite (run_try_get_other _ _ _ _ (Hup _)); split; reflexivity).
  rewrite run_Get, Hup. cbn. split; reflexivity.
Qed.

Lemma other_failure_thrown_witness :
  match run (fun _ => OtherFailure "socket closed")
            (Server.handleSearchStudies Args.none) with
  | ([_], inr e) =>
      e = Error "socket closed" /\
      outcome (fun _ => OtherFailure "socket closed")
        (Server.callTool "2026-01-01" (fun _ => JNull) "search_studies" Args.none)
      = inr (McpError InternalError "socket closed")
  | _ => False
  end.
Proof.
  apply (other_failure_thrown "2026-01-01" (fun _ => JNull) Server.search_studies
           Args.none (fun _ => OtherFailure "socket closed")).
  intros params. reflexivity.
Defined.

(** ** Similar studies: the search itself *)

Lemma set_if_given key (value : string) (params : Params) :
  value <> "" -> set_if key PStr (Some value) params = <[key := PStr value]> params.
Proof. intros Hne. unfold set_if. destruct value; [congruence|reflexivity]. Qed.

(** X12. When the field of the reference record that the similarity type
    selects is present and non-empty, the second request of the
    similar-studies tool is [format], [pageSize] and that one value: the
    first condition under [query.cond], the lead sponsor's name under
    [query.spons], or the first phase under [filter.phase]. *)
Theorem similar_selected_field_searched (args : Args.t) (referenceStudy : Study.t)
    (value : string) :
  selected_field args referenceStudy = Some value ->
  value <> "" ->
  exists key,
    similarity_key (Args.similarityType args ||| "CONDITION") = Some key /\
    Server.similar_params args referenceStudy =
    <[key := PStr value]>
      ({[ "format" := PStr "json";
          "pageSize" := PNum (forwarded_pageSize (Args.pageSize args)) ]} : Params).
Proof.
  unfold selected_field, similarity_key, Server.similar_params.
  rewrite <- base_params_eq.
  intros Hsel Hne. repeat case_match; try discriminate Hsel;
    eexists; (split; [reflexivity|]); rewrite Hsel; now apply set_if_given.
Qed.

Lemma similar_selected_field_searched_witness :
  exists key,
    similarity_key "CONDITION" = Some key /\
    Server.similar_params
      (Sample.args None (Some "NCT00000419") None None None None)
      {| Study.protocolSection :=
           {| Study.identificationModule :=
                {| Study.nctId := "NCT00000419"; Study.briefTitle := "Trial";
                   Study.officialTitle := None |};
              Study.statusModule :=
                {| Study.overallStatus := "COMPLETED"; Study.startDateStruct := None;
                   Study.primaryCompletionDateStruct := None |};
              Study.sponsorCollaboratorsModule := None;
              Study.conditionsModule :=
                Some {| Study.conditions := Some ["Asthma"; "Allergy"] |};
              Study.designModule := None;
              Study.contactsLocationsModule := None;
              Study.eligibilityModule := None |} |} =
    <[key := PStr "Asthma"]>
      ({[ "format" := PStr "json"; "pageSize" := PNum 10 ]} : Params).
Proof.
  apply (similar_selected_field_searched
           (Sample.args None (Some "NCT00000419") None None None None) _ "Asthma").
  - reflexivity.
  - discriminate.
Defined.

Lemma other_than_spec nctId studies study :
  study ∈ Server.other_than nctId studies <->
  study ∈ studies /\ Projector.the_nctId study <> nctId.
Proof.
  unfold Server.other_than.
  rewrite !list_elem_of_In, filter_In, negb_true_iff, String.eqb_neq. reflexivity.
Qed.

(** X13. The similar-studies tool lists the studies of the second answer
    in their order, without those that bear the reference identifier; the
    reference study is never listed.  [resultsShown] counts the listed
    studies, while [totalCount] is the upstream's count of the second
    answer, not reduced by the exclusion. *)
Theorem similar_excludes_reference (args : Args.t) (nctId : string)
    (upstream : Params -> Reply) (referenceStudy : Study.t)
    (others : list Study.t) (total : option Z) (data : StudySearchResponse) :
  Args.nctId args = Some nctId ->
  wellFormed nctId ->
  upstream (reference_params nctId) =
    Response {| studies := Some (referenceStudy :: others); totalCount := total |} ->
  upstream (Server.similar_params args referenceStudy) = Response data ->
  let listed := Server.other_than nctId (studies data ||| []) in
  (forall study, study ∈ listed <->
                 study ∈ (studies data ||| []) /\ Projector.the_nctId study <> nctId) /\
  listed `sublist_of` (studies data ||| []) /\
  exists payload,
    run upstream (Server.handleGetSimilarStudies args) =
      ([reference_params nctId; Server.similar_params args referenceStudy],
       inl {| content := Stringified payload; isError := false |}) /\
    Json.get "similarStudies" payload =
      Some (JArr ((fun study => Object.json (Projector.formatStudySummary study))
                    <$> listed)) /\
    Json.get "resultsShown" payload = Some (JNum (Z.of_nat (length listed))) /\
    Json.get "totalCount" payload = Some (JNum (totalCount data ||| 0)).
Proof.
  intros Hid Hwf Hup Hup2 listed.
  split; [intros study; apply other_than_spec|].
  split; [apply filter_keeps_order|].
  eexists. split; [|split; [|split]].
  - unfold Server.handleGetSimilarStudies.
    rewrite (required_nctId_wellFormed _ _ _ Hid Hwf).
    unfold reference_params in *. rewrite (run_try_get _ _ _ _ Hup).
    cbn [studies]. rewrite (run_try_get _ _ _ _ Hup2).
    cbn [run fst snd Server.ok]. reflexivity.
  - reflexivity.
  - unfold Server.counted, Projector.jlen. rewrite length_fmap. reflexivity.
  - reflexivity.
Qed.

Lemma similar_excludes_reference_witness :
  exists payload,
    run (Sample.upstream "NCT00000419"
           {| studies := Some [Sample.bare "NCT00000419"]; totalCount := Some 1 |}
           {| studies := Some [Sample.bare "NCT00000001"; Sample.bare "NCT00000419"];
              totalCount := Some 7 |})
        (Server.handleGetSimilarStudies
           (Sample.args None (Some "NCT00000419") (Some "PHASE") None None None)) =
      ([reference_params "NCT00000419";
        {[ "format" := PStr "json"; "pageSize" := PNum 10 ]}],
       inl {| content := Stringified payload; isError := false |}) /\
    Json.get "resultsShown" payload = Some (JNum 1) /\
    Json.get "totalCount" payload = Some (JNum 7).
Proof.
  destruct (similar_excludes_reference
              (Sample.args None (Some "NCT00000419") (Some "PHASE") None None None)
              "NCT00000419"
              (Sample.upstream "NCT00000419"
                 {| studies := Some [Sample.bare "NCT00000419"]; totalCount := Some 1 |}
                 {| studies := Some [Sample.bare "NCT00000001"; Sample.bare "NCT00000419"];
                    totalCount := Some 7 |})
              (Sample.bare "NCT00000419") [] (Some 1)
              {| studies := Some [Sample.bare "NCT00000001"; Sample.bare "NCT00000419"];
                 totalCount := Some 7 |}
              eq_refl (proj1 (test_wellFormed "NCT00000419") eq_refl) eq_refl eq_refl)
    as (_ & _ & payload & Hrun & _ & Hshown & Htotal).
  exists payload. split; [exact Hrun|]. split; [exact Hshown|exact Htotal].
Defined.

(** ** International studies: the annotation *)

Lemma set_size_le l : (length (JsSet.of_list l) <= length l)%nat.
Proof.
  destruct (of_list_spec l) as [Hnd Hin].
  apply submseteq_length, NoDup_submseteq; [assumption|].
  intros x Hx. now apply Hin.
Qed.



(** ** Eligibility exclusion: phrases without stray white space *)

Lemma append_char_nonempty cur c : cur +:+ String c "" <> "".
Proof. destruct cur; discriminate. Qed.

Lemma trailing_space_cons c s :
  trailing_space s = true -> trailing_space (String c s) = true.
Proof. destruct s; [discriminate|intros H; exact H]. Qed.

(** Where an empty piece of a split can come from. *)
Lemma split_empty_token_inv s : forall cur in_sep,
  "" ∈ JsString.split_ws_from s cur in_sep ->
  (cur = "" /\ (s = "" \/ (in_sep = false /\ leading_space s = true))) \/
  trailing_space s = true.
Proof.
  induction s as [|c s IH]; intros cur in_sep; cbn [JsString.split_ws_from].
  - intros Hin%list_elem_of_singleton. left. split; [now symmetry|now left].
  - destruct (JsString.isSpace c) eqn:Hc; [destruct in_sep|].
    + intros Hin. apply IH in Hin as [[_ [-> | [Habs _]]] | Htrail].
      * right. exact Hc.
      * discriminate Habs.
      * right. now apply trailing_space_cons.
    + intros [Hcur | Hin]%elem_of_cons.
      * left. split; [now symmetry|]. right. split; [reflexivity|exact Hc].
      * apply IH in Hin as [[_ [-> | [Habs _]]] | Htrail].
        -- right. exact Hc.
        -- discriminate Habs.
        -- right. now apply trailing_space_cons.
    + intros Hin. apply IH in Hin as [[Habs _] | Htrail].
      * now apply append_char_nonempty in Habs.
      * right. now apply trailing_space_cons.
Qed.

Lemma split_no_empty_token s :
  s <> "" -> leading_space s = false -> trailing_space s = false ->
  "" ∉ JsString.split_ws s.
Proof.
  intros Hne Hlead Htrail Hin. unfold JsString.split_ws in Hin.
  apply split_empty_token_inv in Hin as [[_ [? | [_ ?]]] | ?]; congruence.
Qed.

Lemma toLowerCase_nonempty s : s <> "" -> JsString.toLowerCase s <> "".
Proof. destruct s; [congruence|discriminate]. Qed.

Lemma includes_in_empty w : w <> "" -> JsString.includes "" w = false.
Proof. destruct w; [congruence|reflexivity]. Qed.

(** X15. For a non-empty exclusion phrase that neither starts nor ends with
    white space, no token of the split is empty, and a record without
    eligibility-criteria text (missing or empty) is never dropped: such a
    record can only be excluded by the empty token of C9. *)
Theorem exclusion_keeps_missing_criteria (keywords : string)
    (studies : list Study.t) (study : Study.t) :
  keywords <> "" ->
  leading_space keywords = false ->
  trailing_space keywords = false ->
  study ∈ studies ->
  Projector.the_criteria study = None \/ Projector.the_criteria study = Some "" ->
  ("" ∉ JsString.split_ws (JsString.toLowerCase keywords)) /\
  study ∈ Derived.exclusion_filter (Some keywords) studies.
Proof.
  intros Hne Hlead Htrail Hin Hmissing.
  assert ("" ∉ JsString.split_ws (JsString.toLowerCase keywords)) as Htokens.
  { apply split_no_empty_token.
    - now apply toLowerCase_nonempty.
    - now rewrite leading_space_toLowerCase.
    - now rewrite trailing_space_toLowerCase. }
  split; [assumption|].
  unfold Derived.exclusion_filter.
  destruct keywords as [|c s]; [congruence|]. cbn [truthy truthy_string].
  apply list_elem_of_In, filter_In. split; [now apply list_elem_of_In|].
  unfold Derived.not_excluded.
  assert (((JsString.toLowerCase <$> Projector.the_criteria study) ||| "") = "") as ->
    by (destruct Hmissing as [-> | ->]; reflexivity).
  apply negb_true_iff, not_true_iff_false. intros Hex.
  apply existsb_exists in Hex as (word & Hword & Hinc).
  destruct word as [|d word]; [|discriminate Hinc].
  apply Htokens. now apply list_elem_of_In.
Qed.

Lemma exclusion_keeps_missing_criteria_witness :
  Sample.bare "NCT00000003"
  ∈ Derived.exclusion_filter (Some "pregnant  HIV")
      [Sample.study "NCT00000001" (Some "Not pregnant") []; Sample.bare "NCT00000003"].
Proof.
  apply (exclusion_keeps_missing_criteria "pregnant  HIV"
           [Sample.study "NCT00000001" (Some "Not pregnant") []; Sample.bare "NCT00000003"]
           (Sample.bare "NCT00000003")).
  - discriminate.
  - reflexivity.
  - reflexivity.
  - apply list_elem_of_further, list_elem_of_here.
  - left. reflexivity.
Defined.

(** ** Eligibility exclusion: letter case *)

Lemma toLowerChar_idempotent c :
  JsString.toLowerChar (JsString.toLowerChar c) = JsString.toLowerChar c.
Proof. destruct c as [[] [] [] [] [] [] [] []]; reflexivity. Qed.

Lemma toLowerCase_idempotent s :
  JsString.toLowerCase (JsString.toLowerCase s) = JsString.toLowerCase s.
Proof.
  induction s as [|c s IH]; [reflexivity|]. cbn [JsString.toLowerCase].
  now rewrite toLowerChar_idempotent, IH.
Qed.

Lemma toLowerCase_truthy s : truthy (JsString.toLowerCase s) = truthy s.
Proof. destruct s; reflexivity. Qed.

(** X16. The exclusion filter does not see the letter case of the phrase:
    two phrases with the same lower-case form filter every page alike, and
    so does a phrase and its lower-case form. *)
Theorem exclusion_case_insensitive (keywords keywords' : string)
    (studies : list Study.t) :
  JsString.toLowerCase keywords = JsString.toLowerCase keywords' ->
  Derived.exclusion_filter (Some keywords) studies =
  Derived.exclusion_filter (Some keywords') studies /\
  Derived.exclusion_filter (Some (JsString.toLowerCase keywords)) studies =
  Derived.exclusion_filter (Some keywords) studies.
Proof.
  intros Hsame. unfold Derived.exclusion_filter.
  rewrite toLowerCase_idempotent, toLowerCase_truthy.
  rewrite <- (toLowerCase_truthy keywords), <- (toLowerCase_truthy keywords'), Hsame.
  split; reflexivity.
Qed.

Lemma exclusion_case_insensitive_witness :
  Derived.exclusion_filter (Some "HIV Pregnant")
    [Sample.study "NCT00000001" (Some "Not pregnant") []] =
  Derived.exclusion_filter (Some "hiv PREGNANT")
    [Sample.study "NCT00000001" (Some "Not pregnant") []].
Proof.
  apply (exclusion_case_insensitive "HIV Pregnant" "hiv PREGNANT"
           [Sample.study "NCT00000001" (Some "Not pregnant") []]).
  reflexivity.
Defined.

(** ** The counters of a payload *)

Lemma outcome_try_get upstream params on_response data :
  upstream params = Response data ->
  outcome upstream (Server.try_get params on_response) =
  outcome upstream (on_response data).
Proof. intros H. unfold outcome. now rewrite (run_try_get _ _ _ _ H). Qed.

Lemma filter_shrinks {A} (keep : A -> bool) l :
  (length (List.filter keep l) <= length l)%nat.
Proof. apply sublist_length, filter_keeps_order. Qed.

Ltac counters :=
  intros [= <-] _; eexists; eexists;
  split; [reflexivity|]; split; [reflexivity|]; split; [reflexivity|];
  split; [unfold Server.counted, Projector.jlen; rewrite ?length_fmap; reflexivity|];
  rewrite ?length_fmap; unfold Server.other_than, Server.international_filter;
  first [ reflexivity | apply exclusion_filter_shrinks | apply filter_shrinks ].

(** X17. Whenever a listing tool (every tool but get_study_details and
    get_trial_statistics) returns a normal result for an upstream answer,
    the payload's [totalCount] is the upstream's count (0 when the answer
    has none), the studies are listed under the tool's key, [resultsShown]
    is the number of studies listed, and that number never exceeds the
    number of studies fetched. *)
Theorem payload_counters (futureDate : string) (daysFromStart : string -> Json)
    (t : Server.Tool) (args : Args.t) (upstream : Params -> Reply)
    (data : StudySearchResponse) (result : ToolResult) :
  (forall params, upstream params = Response data) ->
  t <> Server.get_study_details ->
  t <> Server.get_trial_statistics ->
  outcome upstream (Server.handler futureDate daysFromStart t args) = inl result ->
  isError result = false ->
  exists payload items,
    content result = Stringified payload /\
    Json.get "totalCount" payload = Some (JNum (totalCount data ||| 0)) /\
    Json.get (list_key t) payload = Some (JArr items) /\
    Json.get "resultsShown" payload = Some (JNum (Z.of_nat (length items))) /\
    (length items <= length (studies data ||| []))%nat.
Proof.
  intros Hup Hdetails Hstatistics.
  destruct t; try congruence; clear Hdetails Hstatistics;
    cbn [Server.handler list_key]; unfold_handlers; split_required;
    try discriminate;
    rewrite ?(outcome_try_get _ _ _ _ (Hup _));
    try (unfold outcome; cbn [run snd Server.ok]; counters).
  2: { unfold Server.eligibility_payload, outcome. cbn [run snd Server.ok]. counters. }
  destruct (studies data) as [[|referenceStudy others]|] eqn:Hstudies;
    try (unfold outcome; cbn; intros [= <-]; discriminate).
  rewrite (outcome_try_get _ _ _ _ (Hup _)).
  unfold outcome; cbn [run snd Server.ok]. rewrite <- Hstudies. counters.
Qed.

Lemma payload_counters_witness :
  exists payload items,
    Json.get "totalCount" payload = Some (JNum 450) /\
    Json.get "internationalStudies" payload = Some (JArr items) /\
    Json.get "resultsShown" payload = Some (JNum (Z.of_nat (length items))) /\
    (length items <= 2)%nat.
Proof.
  edestruct (payload_counters "2026-01-01" (fun _ => JNull)
               Server.search_international_studies
               (Sample.args None None None None None None)
               (Sample.always
                  {| studies := Some [Sample.study "NCT00000001" None ["France"; "Spain"];
                                      Sample.study "NCT00000002" None ["France"]];
                     totalCount := Some 450 |})
               {| studies := Some [Sample.study "NCT00000001" None ["France"; "Spain"];
                                   Sample.study "NCT00000002" None ["France"]];
                  totalCount := Some 450 |})
    as (payload & items & _ & Htotal & Hitems & Hshown & Hle).
  - intros params. reflexivity.
  - discriminate.
  - discriminate.
  - reflexivity.
  - reflexivity.
  - exists payload, items. repeat split; assumption.
Defined.

(** ** The shape of a tool result *)

Lemma normal_ok payload : normal_result (Server.ok payload).
Proof. split; [reflexivity|]. now exists payload. Qed.

Lemma error_failed prefix rest :
  prefix ∈ error_prefixes -> error_result (Server.failed (prefix +:+ rest)).
Proof. intros Hin. split; [reflexivity|]. exists prefix, rest. now split. Qed.

Lemma error_apiError error : error_result (Server.apiError error).
Proof. apply error_failed. apply list_elem_of_here. Qed.

Lemma outcome_try_get_shape upstream params on_response result :
  (forall data result',
     outcome upstream (on_response data) = inl result' ->
     normal_result result' \/ error_result result') ->
  outcome upstream (Server.try_get params on_response) = inl result ->
  normal_result result \/ error_result result.
Proof.
  intros Hshape. unfold outcome, Server.try_get. rewrite run_Get. cbn [snd].
  destruct (upstream params) as [data|error|text].
  - apply Hshape.
  - cbn. intros [= <-]. right. apply error_apiError.
  - discriminate.
Qed.

Ltac shape_leaf :=
  unfold outcome; cbn [run snd]; intros [= <-];
  first [ left; apply normal_ok
        | right; apply error_failed; unfold error_prefixes;
          repeat first [apply list_elem_of_here | apply list_elem_of_further]
        | right; apply error_apiError ].

Lemma returned_result_shape (futureDate : string) (daysFromStart : string -> Json)
    (t : Server.Tool) (args : Args.t) (upstream : Params -> Reply)
    (result : ToolResult) :
  outcome upstream (Server.handler futureDate daysFromStart t args) = inl result ->
  normal_result result \/ error_result result.
Proof.
  destruct t; cbn [Server.handler]; unfold_handlers; split_required;
    try discriminate;
    try (apply outcome_try_get_shape; intros data result'; shape_leaf).
  - unfold outcome. rewrite run_Get. cbn [snd].
    destruct (upstream _) as [data|error|text]; [| |discriminate].
    + destruct (studies data) as [[|study ?]|]; shape_leaf.
    + case_bool_decide; shape_leaf.
  - apply outcome_try_get_shape. intros referenceData result'.
    destruct (studies referenceData) as [[|referenceStudy ?]|]; try shape_leaf.
    apply outcome_try_get_shape. intros data result''. shape_leaf.
Qed.

(** X18. Every result a handler returns has one of two shapes: a normal
    result, not error-flagged, whose text is a serialised JSON payload; or
    an error-flagged result whose text is a plain message starting with
    "Clinical Trials API error: ", "No study found with NCT ID: ",
    "Study not found: " or "Reference study not found: ".  An
    error-flagged result never carries a partial payload. *)
Theorem handler_result_shape (futureDate : string) (daysFromStart : string -> Json)
    (t : Server.Tool) (args : Args.t) (upstream : Params -> Reply)
    (result : ToolResult) :
  outcome upstream (Server.handler futureDate daysFromStart t args) = inl result ->
  normal_result result \/ error_result result.
Proof. apply returned_result_shape. Qed.

Lemma handler_result_shape_witness :
  normal_result (Server.failed "Reference study not found: NCT00000419") \/
  error_result (Server.failed "Reference study not found: NCT00000419").
Proof.
  apply (handler_result_shape "2026-01-01" (fun _ => JNull) Server.get_similar_studies
           (Sample.args None (Some "NCT00000419") None None None None)
           (Sample.always {| studies := Some []; totalCount := Some 0 |})).
  reflexivity.
Defined.

(** ** The REST wrapper *)

Section HttpFacts.
Variable parseValue : string -> option Json.
Variable syntaxError : string -> string.
Variable mcpMessage : ErrorCode -> string -> string.
Variable futureDate : string.
Variable daysFromStart : string -> Json.

Let handleToolCall :=
  Http.handleToolCall parseValue syntaxError mcpMessage futureDate daysFromStart.

Lemma JSON_parse_error_text prefix rest :
  prefix ∈ error_prefixes -> Http.JSON_parse parseValue (prefix +:+ rest) = None.
Proof.
  unfold error_prefixes. intros Hin.
  repeat (apply elem_of_cons in Hin as [-> | Hin]; [reflexivity|]).
  now apply elem_of_nil in Hin.
Qed.

Lemma respond_error name result :
  error_result result ->
  exists text,
    content result = Text text /\
    Http.respond parseValue syntaxError name result =
    Http.failure name (syntaxError text).
Proof.
  intros (_ & prefix & rest & Hprefix & Hcontent).
  exists (prefix +:+ rest). split; [assumption|].
  unfold Http.respond. rewrite Hcontent, (JSON_parse_error_text _ _ Hprefix).
  assert (truthy (prefix +:+ rest) = true) as ->; [|reflexivity].
  unfold error_prefixes in Hprefix.
  repeat (apply elem_of_cons in Hprefix as [-> | Hprefix]; [reflexivity|]).
  now apply elem_of_nil in Hprefix.
Qed.

Lemma respond_normal name result :
  normal_result result ->
  exists payload,
    content result = Stringified payload /\
    Http.respond parseValue syntaxError name result =
    {| Http.status := 200;
       Http.body := Object.json [("success", Some (JBool true));
                                 ("tool", Some (JStr name));
                                 ("data", Some payload);
                                 ("isError", Some (JBool false))] |}.
Proof.
  intros (Hflag & payload & Hcontent). exists payload. split; [assumption|].
  unfold Http.respond, Http.success. now rewrite Hcontent, Hflag.
Qed.

Lemma handleToolCall_registered upstream t args :
  handleToolCall upstream (Server.tool_name t) args =
  (requests upstream (Server.handler futureDate daysFromStart t args),
   match outcome upstream (Server.handler futureDate daysFromStart t args) with
   | inl result => Http.respond parseValue syntaxError (Server.tool_name t) result
   | inr e => Http.failure (Server.tool_name t) (Http.errorMessage mcpMessage e)
   end).
Proof.
  unfold handleToolCall, Http.handleToolCall, requests, outcome.
  rewrite (proj1 (tool_named_name futureDate daysFromStart t)).
  now destruct (run upstream _).
Qed.

(** X19. Over HTTP an error-flagged tool result is not delivered: the
    wrapper parses the result text as JSON, the plain error text does not
    parse, and the answer is status 500 with [success: false] and the parse
    error's message in place of the tool's own text. *)
Theorem http_error_result_is_500 (upstream : Params -> Reply) (t : Server.Tool)
    (args : Args.t) (result : ToolResult) :
  outcome upstream (Server.handler futureDate daysFromStart t args) = inl result ->
  isError result = true ->
  exists text,
    content result = Text text /\
    snd (handleToolCall upstream (Server.tool_name t) args) =
    {| Http.status := 500;
       Http.body := Object.json [("success", Some (JBool false));
                                 ("tool", Some (JStr (Server.tool_name t)));
                                 ("error", Some (JStr (syntaxError text)))] |}.
Proof.
  intros Hout Hflag.
  destruct (returned_result_shape _ _ _ _ _ _ Hout) as [[Hnormal _] | Herror];
    [congruence|].
  destruct (respond_error (Server.tool_name t) result Herror) as (text & Htext & Hrespond).
  exists text. split; [assumption|].
  rewrite handleToolCall_registered, Hout. cbn [snd]. exact Hrespond.
Qed.

(** X20. An HTTP answer with status 200 is always a success: the tool name
    is registered, its handler returned a normal result, and the body is
    [success: true], the tool name, the payload as [data] and
    [isError: false].  A thrown error and an error-flagged result give
    status 500, an unregistered tool name gives 404 without any request. *)
Theorem http_ok_is_success (upstream : Params -> Reply) (name : string)
    (args : Args.t) :
  let answer := snd (handleToolCall upstream name args) in
  (Http.status answer = 200 ->
   exists t result payload,
     Server.tool_named name = Some t /\
     outcome upstream (Server.handler futureDate daysFromStart t args) = inl result /\
     isError result = false /\
     content result = Stringified payload /\
     Http.body answer =
       Object.json [("success", Some (JBool true)); ("tool", Some (JStr name));
                    ("data", Some payload); ("isError", Some (JBool false))]) /\
  (Http.status answer = 200 \/ Http.status answer = 500 \/ Http.status answer = 404) /\
  (Http.status answer = 404 <-> Server.tool_named name = None) /\
  (Server.tool_named name = None -> fst (handleToolCall upstream name args) = []).
Proof.
  intros answer. subst answer.
  destruct (Server.tool_named name) as [t|] eqn:Hnamed.
  - pose proof (tool_named_Some _ _ Hnamed) as <-.
    rewrite handleToolCall_registered. cbn [snd fst].
    destruct (outcome upstream _) as [result|e] eqn:Hout.
    + destruct (returned_result_shape _ _ _ _ _ _ Hout) as [Hnormal | Herror].
      * destruct (respond_normal (Server.tool_name t) result Hnormal)
          as (payload & Hcontent & ->). cbn [Http.status Http.body].
        split; [|split; [|split]]; [|now left| |]; [|split|]; try discriminate.
        intros _. exists t, result, payload. destruct Hnormal as [Hflag _].
        repeat split; assumption || reflexivity.
      * destruct (respond_error (Server.tool_name t) result Herror)
          as (text & _ & ->). cbn [Http.status Http.failure].
        split; [|split; [|split]]; [|right; now left| |]; [|split|]; discriminate.
    + cbn [Http.status Http.failure].
      split; [|split; [|split]]; [|right; now left| |]; [|split|]; discriminate.
  - unfold handleToolCall, Http.handleToolCall. rewrite Hnamed.
    cbn [snd fst Http.status].
    split; [|split; [|split]]; [|right; now right| |]; [|split|]; try discriminate;
      reflexivity.
Qed.

End HttpFacts.

Lemma http_error_result_is_500_witness :
  Http.status
    (snd (Http.handleToolCall (fun _ => None) (fun text => "Unexpected token")
            (fun _ message => message) "2026-01-01" (fun _ => JNull)
            (Sample.always {| studies := Some []; totalCount := Some 0 |})
            "get_similar_studies"
            (Sample.args None (Some "NCT00000419") None None None None))) = 500.
Proof.
  destruct (http_error_result_is_500 (fun _ => None) (fun text => "Unexpected token")
              (fun _ message => message) "2026-01-01" (fun _ => JNull)
              (Sample.always {| studies := Some []; totalCount := Some 0 |})
              Server.get_similar_studies
              (Sample.args None (Some "NCT00000419") None None None None)
              (Server.failed "Reference study not found: NCT00000419")
              eq_refl eq_refl) as (text & _ & Hanswer).
  change (Server.tool_name Server.get_similar_studies) with "get_similar_studies" in Hanswer.
  rewrite Hanswer. reflexivity.
Defined.

Lemma http_ok_is_success_witness :
  exists t result payload,
    Server.tool_named "search_studies" = Some t /\
    outcome (Sample.always {| studies := Some []; totalCount := Some 0 |})
            (Server.handler "2026-01-01" (fun _ => JNull) t Args.none) = inl result /\
    isError result = false /\
    content result = Stringified payload.
Proof.
  destruct (http_ok_is_success (fun _ => None) (fun text => "Unexpected token")
              (fun _ message => message) "2026-01-01" (fun _ => JNull)
              (Sample.always {| studies := Some []; totalCount := Some 0 |})
              "search_studies" Args.none) as (Hok & _).
  destruct (Hok eq_refl) as (t & result & payload & Hnamed & Hout & Hflag & Hcontent & _).
  exists t, result, payload. repeat split; assumption.
Defined.

(** ** Study details *)

(** X21. For a well-formed identifier that the upstream answers, the
    details tool has sent exactly one request, restricted to that
    identifier with page size 1, and returns the detailed view of the first
    study of the answer, ignoring any further one; an answer without
    studies gives the error-flagged text "No study found with NCT ID: <id>". *)
Theorem details_first_study (args : Args.t) (nctId : string)
    (upstream : Params -> Reply) (data : StudySearchResponse) :
  Args.nctId args = Some nctId ->
  wellFormed nctId ->
  let lookup : Params :=
    {[ "format" := PStr "json"; "query.term" := PStr nctId;
       "filter.ids" := PStr nctId; "pageSize" := PNum 1 ]} in
  upstream lookup = Response data ->
  run upstream (Server.handleGetStudyDetails args) =
  ([lookup],
   inl match studies data ≫= head with
       | Some study =>
           {| content := Stringified (Projector.formatDetailedStudy study);
              isError := false |}
       | None =>
           {| content := Text ("No study found with NCT ID: " +:+ nctId);
              isError := true |}
       end).
Proof.
  intros Hid Hwf lookup Hup. subst lookup.
  unfold Server.handleGetStudyDetails.
  rewrite (required_nctId_wellFormed _ _ _ Hid Hwf), run_Get, Hup.
  destruct (studies data) as [[|study ?]|]; reflexivity.
Qed.

Lemma details_first_study_witness :
  run (Sample.always {| studies := Some [Sample.bare "NCT00000419";
                                         Sample.bare "NCT00000001"];
                        totalCount := Some 2 |})
      (Server.handleGetStudyDetails
         (Sample.args None (Some "NCT00000419") None None None None)) =
  ([{[ "format" := PStr "json"; "query.term" := PStr "NCT00000419";
       "filter.ids" := PStr "NCT00000419"; "pageSize" := PNum 1 ]}],
   inl {| content := Stringified (Projector.formatDetailedStudy (Sample.bare "NCT00000419"));
          isError := false |}).
Proof.
  apply (details_first_study
           (Sample.args None (Some "NCT00000419") None None None None)
           "NCT00000419"
           (Sample.always {| studies := Some [Sample.bare "NCT00000419";
                                              Sample.bare "NCT00000001"];
                             totalCount := Some 2 |})
           {| studies := Some [Sample.bare "NCT00000419"; Sample.bare "NCT00000001"];
              totalCount := Some 2 |}).
  - reflexivity.
  - apply test_wellFormed. reflexivity.
  - reflexivity.
Defined.

(** X22. The detailed view substitutes no defaults: sponsor, conditions,
    eligibility and locations are each present exactly when the record has
    them.  When present, the eligibility block carries the whole criteria
    text, not a preview, and the locations are the first ten of the
    record. *)
Theorem detailed_view_fields (study : Study.t) :
  let view := Projector.formatDetailedStudy study in
  Json.get "sponsor" view =
    Projector.leadSponsor_json <$> Projector.the_leadSponsor study /\
  Json.get "conditions" view = Json.strings <$> Projector.the_conditions study /\
  Json.get "eligibility" view =
    Projector.eligibilityModule_json
      <$> Study.eligibilityModule (Study.protocolSection study) /\
  (Json.get "eligibility" view ≫= Json.get "eligibilityCriteria") =
    JStr <$> Projector.the_criteria study /\
  Json.get "locations" view =
    (fun l => JArr (Projector.location_json <$> take 10 l))
      <$> Projector.the_locations study.
Proof.
  intros view. subst view.
  unfold Projector.formatDetailedStudy, Projector.the_criteria.
  destruct (Projector.the_leadSponsor study), (Projector.the_conditions study),
    (Projector.the_locations study),
    (Study.eligibilityModule (Study.protocolSection study)) as [e|];
    repeat split; try reflexivity;
    cbn; unfold Projector.eligibilityModule_json;
    destruct (Study.eligibilityCriteria e), (Study.minimumAge e),
      (Study.maximumAge e); reflexivity.
Qed.

(** ** Statistics: the views *)

Lemma groupByField_total field studies :
  object_total (Derived.groupByField studies field) = Z.of_nat (length studies).
Proof.
  unfold Derived.groupByField. rewrite total_groups.
  now rewrite (groups_total_fold field studies []).
Qed.

Lemma group_key_unknown field study :
  ~ field ∈ ["status"; "phase"; "studyType"; "condition"; "sponsor"] ->
  Derived.group_key field study = "Unknown".
Proof.
  intros Hnot. unfold Derived.group_key.
  repeat match goal with
  | |- context [String.eqb field ?known] =>
      destruct (String.eqb_spec field known) as [->|_];
      [exfalso; apply Hnot;
       repeat first [apply list_elem_of_here | apply list_elem_of_further]|]
  end.
  reflexivity.
Qed.

Lemma occurrences_unknown field studies :
  ~ field ∈ ["status"; "phase"; "studyType"; "condition"; "sponsor"] ->
  occurrences field "Unknown" studies = Z.of_nat (length studies).
Proof.
  intros Hnot. unfold occurrences. f_equal.
  induction studies as [|study studies IH]; [reflexivity|].
  cbn [List.filter length]. rewrite (group_key_unknown _ _ Hnot). cbn. now f_equal.
Qed.

(** X23. The statistics tool always fetches a page of 100 and reports the
    number of studies it analysed.  Without [groupBy] (missing or empty) it
    returns the number of studies together with three groupings, by
    status, phase and study type, and the counts of each grouping add up
    to that number.  With a [groupBy] it returns that one grouping; a
    field name it does not know puts every study under "Unknown". *)
Theorem statistics_views (args : Args.t) (upstream : Params -> Reply)
    (data : StudySearchResponse) :
  upstream (Server.getTrialStatistics_params args) = Response data ->
  let fetched := studies data ||| [] in
  let n := Z.of_nat (length fetched) in
  exists payload statistics,
    run upstream (Server.handleGetTrialStatistics args) =
      ([Server.getTrialStatistics_params args],
       inl {| content := Stringified payload; isError := false |}) /\
    Server.getTrialStatistics_params args !! "pageSize" = Some (PNum 100) /\
    Json.get "analyzedStudies" payload = Some (JNum n) /\
    Json.get "totalStudies" payload = Some (JNum (totalCount data ||| 0)) /\
    Json.get "statistics" payload = Some statistics /\
    (given (Args.groupBy args) = false ->
     Json.get "totalStudies" statistics = Some (JNum n) /\
     forall view, view ∈ [("byStatus", "status"); ("byPhase", "phase");
                          ("byStudyType", "studyType")] ->
       Json.get (fst view) statistics = Some (Derived.groupByField fetched (snd view)) /\
       object_total (Derived.groupByField fetched (snd view)) = n) /\
    (forall field, Args.groupBy args = Some field -> field <> "" ->
       statistics = Derived.groupByField fetched field /\
       object_total statistics = n /\
       (~ field ∈ ["status"; "phase"; "studyType"; "condition"; "sponsor"] ->
        forall key, Json.get key statistics =
                    if decide (key = "Unknown" /\ fetched <> []) then Some (JNum n)
                    else None)).
Proof.
  intros Hup fetched n.
  exists (Object.json
     [("totalStudies", Projector.jnum (totalCount data ||| 0));
      ("analyzedStudies", Projector.jlen fetched);
      ("groupBy", Projector.jstr (Args.groupBy args ||| "none"));
      ("filters", Some (from_option Server.filters_json (JObj []) (Args.filters args)));
      ("statistics", Some (Derived.calculateStatistics fetched (Args.groupBy args)))]),
    (Derived.calculateStatistics fetched (Args.groupBy args)).
  split; [|split; [|split; [|split; [|split; [|split]]]]]; try reflexivity.
  - unfold Server.handleGetTrialStatistics. rewrite (run_try_get _ _ _ _ Hup).
    reflexivity.
  - unfold Server.getTrialStatistics_params. cbv beta.
    now rewrite !set_if_lookup_ne by discriminate.
  - intros Hnone.
    assert (Derived.calculateStatistics fetched (Args.groupBy args) =
            Object.json
              [("totalStudies", Projector.jlen fetched);
               ("byStatus", Some (Derived.groupByField fetched "status"));
               ("byPhase", Some (Derived.groupByField fetched "phase"));
               ("byStudyType", Some (Derived.groupByField fetched "studyType"))]) as ->.
    { unfold Derived.calculateStatistics.
      destruct (Args.groupBy args) as [[|c field]|]; try reflexivity. discriminate Hnone. }
    split; [reflexivity|]. intros view Hview.
    repeat (apply elem_of_cons in Hview as [-> | Hview];
            [split; [reflexivity|apply groupByField_total]|]).
    now apply elem_of_nil in Hview.
  - intros field Hfield Hne.
    assert (Derived.calculateStatistics fetched (Args.groupBy args) =
            Derived.groupByField fetched field) as ->.
    { unfold Derived.calculateStatistics. rewrite Hfield.
      destruct field; [congruence|reflexivity]. }
    split; [reflexivity|]. split; [apply groupByField_total|].
    intros Hunknown key.
    unfold Derived.groupByField. cbn [Json.get]. rewrite lookup_groups.
    rewrite (group_count_fold field key fetched []). cbn [group_count].
    destruct (String.eqb_spec key "Unknown") as [->|Hkey].
    + rewrite (occurrences_unknown _ _ Hunknown). fold n.
      destruct fetched as [|study rest] eqn:Hfetched.
      * rewrite decide_True by reflexivity. rewrite decide_False by (intros [_ ?]; congruence).
        reflexivity.
      * rewrite decide_False by (subst n; cbn [length]; lia).
        rewrite decide_True by (split; [reflexivity|discriminate]). reflexivity.
    + assert (occurrences field key fetched = 0) as ->.
      { unfold occurrences. replace (List.filter _ fetched) with (@nil Study.t); [reflexivity|].
        symmetry. apply filter_none. intros study.
        rewrite (group_key_unknown _ _ Hunknown). apply String.eqb_neq. congruence. }
      rewrite decide_True by reflexivity.
      rewrite decide_False by (intros [? _]; congruence). reflexivity.
Qed.

Lemma statistics_views_witness :
  exists payload statistics,
    run (Sample.always {| studies := Some [Sample.bare "NCT00000001";
                                           Sample.study "NCT00000002" None []];
                          totalCount := Some 900 |})
        (Server.handleGetTrialStatistics Args.none) =
      ([{[ "format" := PStr "json"; "pageSize" := PNum 100 ]}],
       inl {| content := Stringified payload; isError := false |}) /\
    Json.get "analyzedStudies" payload = Some (JNum 2) /\
    Json.get "totalStudies" payload = Some (JNum 900) /\
    Json.get "statistics" payload = Some statistics /\
    Json.get "totalStudies" statistics = Some (JNum 2).
Proof.
  destruct (statistics_views Args.none
              (Sample.always {| studies := Some [Sample.bare "NCT00000001";
                                                 Sample.study "NCT00000002" None []];
                                totalCount := Some 900 |})
              {| studies := Some [Sample.bare "NCT00000001";
                                  Sample.study "NCT00000002" None []];
                 totalCount := Some 900 |} eq_refl)
    as (payload & statistics & Hrun & _ & Hn & Htotal & Hstats & Hnone & _).
  exists payload, statistics.
  split; [exact Hrun|]. split; [exact Hn|]. split; [exact Htotal|].
  split; [exact Hstats|]. apply Hnone. reflexivity.
Defined.

Lemma requests_bounded_witness :
  length (requests (Sample.always {| studies := Some []; totalCount := Some 0 |})
            (Server.handleSearchByDateRange Args.none)) = 1%nat.
Proof.
  apply (requests_bounded "2026-01-01" (fun _ => JNull) Server.search_by_date_range
           Args.none (Sample.always {| studies := Some []; totalCount := Some 0 |})).
  - reflexivity.
  - reflexivity.
Defined.
